(** * Sales Agent Benchmark: the Flask reference handler [analyze]

    A shallow embedding of [examples/python-flask/app.py].  The handler
    receives the request body as a Python value obtained from JSON,
    validates two fields, renders a prompt, makes one chat-completion
    call, extracts a JSON object from the reply and returns a normalized
    dictionary.

    Conventions of the embedding:
    - a Python [str] is a Rocq [string] holding its UTF-8 encoding;
    - a Python [int] is a [Z]; a Python [float] is a binary64 value
      written sign, significand, binary exponent ([pyfloat]);
    - a Python [dict] is an association list in insertion order with
      pairwise distinct keys;
    - an exception is a value of [exn]; pure code lives in [result],
      the handler, which performs one outbound call, in [eff];
    - [jsonify(d)] is the dictionary [d] itself, paired with the status;
    - [str(v)] of a value that is not a string is a parameter of the
      handler ([str_of]);
    - [re.search] and [json.loads] are modelled from their library
      semantics, without the resource limits of an interpreter (depth of
      recursion, length of integer literals). *)

From Stdlib Require Import String Ascii List ZArith NArith Bool Lia.
Import ListNotations.

Open Scope list_scope.
Open Scope string_scope.

(** ** Characters and strings *)

Definition chr (n : nat) : string := String (ascii_of_nat n) EmptyString.

(** [chr(10)], the separator of the bulleted lists. *)
Definition nl : string := chr 10.

Definition byte (c : ascii) : N := N_of_ascii c.

(** Replaces every apostrophe by a double quote: lets the JSON text and
    the system prompt of the source be written as one literal. *)
Fixpoint dquoted (s : string) : string :=
  match s with
  | EmptyString => EmptyString
  | String c r =>
      String (if Ascii.eqb c "'"%char then ascii_of_nat 34 else c) (dquoted r)
  end.

(** ** Python floats (binary64) *)

Module PyFloat.

(** [Finite neg m e] is (-1)^neg * m * 2^e with either
    2^52 <= m < 2^53 and -1074 <= e <= 971, or m < 2^52 and e = -1074. *)
Inductive pyfloat : Type :=
| NaN
| Inf (neg : bool)
| Finite (neg : bool) (m : N) (e : Z).

Definition round_half_even (num den : Z) : Z :=
  let q := (num / den)%Z in
  let r := (num mod den)%Z in
  if (2 * r <? den)%Z then q
  else if (den <? 2 * r)%Z then (q + 1)%Z
  else if Z.even q then q else (q + 1)%Z.

(** The binary64 value nearest to d * 10^e10 (ties to even), which is what
    [float(literal)] returns for a decimal literal. *)
Definition of_decimal (neg : bool) (d : N) (e10 : Z) : pyfloat :=
  if (d =? 0)%N then Finite neg 0 (-1074)
  else
    let num := if (0 <=? e10)%Z then (Z.of_N d * 10 ^ e10)%Z else Z.of_N d in
    let den := if (0 <=? e10)%Z then 1%Z else (10 ^ (- e10))%Z in
    let t := (Z.log2 num - Z.log2 den)%Z in
    let ge := if (0 <=? t)%Z then (den * 2 ^ t <=? num)%Z
              else (den <=? num * 2 ^ (- t))%Z in
    let l := if ge then t else (t - 1)%Z in
    let k := Z.max (l - 52) (-1074) in
    let q := if (0 <=? k)%Z then round_half_even num (den * 2 ^ k)
             else round_half_even (num * 2 ^ (- k)) den in
    let q' := if (q =? 2 ^ 53)%Z then (2 ^ 52)%Z else q in
    let k' := if (q =? 2 ^ 53)%Z then (k + 1)%Z else k in
    if (971 <? k')%Z then Inf neg else Finite neg (Z.to_N q') k'.

(** [bool(x)] for a float: false exactly on the two zeros. *)
Definition nonzero (x : pyfloat) : bool :=
  match x with
  | Finite _ m _ => negb (m =? 0)%N
  | _ => true
  end.

End PyFloat.
Export PyFloat.

(** ** Python values that come out of a JSON document *)

#[warnings="-register-all"]
Inductive json : Type :=
| JNull
| JBool (b : bool)
| JInt (z : Z)
| JFloat (x : pyfloat)
| JStr (s : string)
| JList (l : list json)
| JDict (d : list (string * json)).

Definition dict : Type := list (string * json).

Fixpoint dict_get (k : string) (d : dict) : option json :=
  match d with
  | [] => None
  | (k', v) :: d' => if String.eqb k k' then Some v else dict_get k d'
  end.

(** [d[k] = v]: a key already there keeps its place. *)
Fixpoint dict_set (k : string) (v : json) (d : dict) : dict :=
  match d with
  | [] => [(k, v)]
  | (k', v') :: d' =>
      if String.eqb k k' then (k', v) :: d' else (k', v') :: dict_set k v d'
  end.

(** Truth value of an object, as [not], [or] and [if] test it. *)
Definition truthy (v : json) : bool :=
  match v with
  | JNull => false
  | JBool b => b
  | JInt z => negb (z =? 0)%Z
  | JFloat x => nonzero x
  | JStr s => negb (String.eqb s "")
  | JList l => match l with [] => false | _ => true end
  | JDict d => match d with [] => false | _ => true end
  end.

(** ** Exceptions and the two monads *)

Inductive exn : Type :=
| AttributeError
| TypeError
| IndexError
| JSONDecodeError
| RecursionError
| APIConnectionError
| AuthenticationError
| RateLimitError.

Inductive result (A : Type) : Type :=
| Ok (a : A)
| Error (e : exn).
Arguments Ok {A} a.
Arguments Error {A} e.

Definition bind {A B : Type} (m : result A) (k : A -> result B) : result B :=
  match m with
  | Ok a => k a
  | Error e => Error e
  end.

Declare Scope result_scope.
Delimit Scope result_scope with result.
Bind Scope result_scope with result.
Notation "x <- m ;; k" := (bind m (fun x => k))
  (at level 61, m at next level, right associativity) : result_scope.
Notation "' pat <- m ;; k" := (bind m (fun x => match x with pat => k end))
  (at level 61, pat pattern, m at next level, right associativity) : result_scope.
Open Scope result_scope.

(** [try: m  except (classes): h]. *)
Definition try_except {A : Type} (m : result A) (caught : exn -> bool)
    (h : result A) : result A :=
  match m with
  | Ok a => Ok a
  | Error e => if caught e then h else Error e
  end.

Fixpoint mapM {A B : Type} (f : A -> result B) (l : list A) : result (list B) :=
  match l with
  | [] => Ok []
  | a :: l' => b <- f a ;; bs <- mapM f l' ;; Ok (b :: bs)
  end.

(** ** UTF-8 *)

Module Utf8.

Definition is_continuation (c : ascii) : bool :=
  ((128 <=? byte c) && (byte c <? 192))%N.

Definition starts_with_continuation (s : string) : bool :=
  match s with
  | String c _ => is_continuation c
  | EmptyString => false
  end.

(** The characters of a [str], each as a one-character [str]: what
    iterating over a string yields. *)
Fixpoint characters (s : string) : list string :=
  match s with
  | EmptyString => []
  | String c r =>
      match characters r with
      | x :: xs =>
          if starts_with_continuation x then String c x :: xs
          else String c EmptyString :: x :: xs
      | [] => [String c EmptyString]
      end
  end.

Definition of_byte (n : N) : string := String (ascii_of_N n) EmptyString.

(** Encoding of one code point; a lone surrogate keeps its three-byte form. *)
Definition encode (u : N) : string :=
  (if u <? 128 then of_byte u
   else if u <? 2048 then
     of_byte (192 + u / 64) ++ of_byte (128 + u mod 64)
   else if u <? 65536 then
     of_byte (224 + u / 4096) ++ of_byte (128 + (u / 64) mod 64)
       ++ of_byte (128 + u mod 64)
   else
     of_byte (240 + u / 262144) ++ of_byte (128 + (u / 4096) mod 64)
       ++ of_byte (128 + (u / 64) mod 64) ++ of_byte (128 + u mod 64))%N.

End Utf8.

(** ** [json.loads]

    The decoder of the Python standard library, in its default (strict)
    configuration: the grammar of RFC 8259 with the literals [NaN],
    [Infinity] and [-Infinity], [dict] built from the pairs in order (a
    repeated key keeps its first place and its last value). *)

Module JsonDecoder.

Definition is_ws (c : ascii) : bool :=
  ((byte c =? 32) || (byte c =? 9) || (byte c =? 10) || (byte c =? 13))%N.

Fixpoint skip_ws (s : string) : string :=
  match s with
  | String c r => if is_ws c then skip_ws r else s
  | EmptyString => s
  end.

Definition is_digit (c : ascii) : bool :=
  ((48 <=? byte c) && (byte c <=? 57))%N.

(** The longest run of decimal digits at the head of [s], and what follows. *)
Fixpoint digits (s : string) : string * string :=
  match s with
  | String c r =>
      if is_digit c then let '(ds, rest) := digits r in (String c ds, rest)
      else (EmptyString, s)
  | EmptyString => (EmptyString, s)
  end.

Fixpoint value_of_digits (acc : N) (ds : string) : N :=
  match ds with
  | String c r => value_of_digits (10 * acc + (byte c - 48))%N r
  | EmptyString => acc
  end.

(** The rest of [s] when [s] starts with [c]. *)
Definition expect (c : ascii) (s : string) : option string :=
  match s with
  | String x r => if Ascii.eqb x c then Some r else None
  | EmptyString => None
  end.

Definition quote : ascii := ascii_of_nat 34.

(** A dot and at least one digit, or nothing. *)
Definition fraction (s : string) : string * string :=
  match expect "." s with
  | Some r =>
      let '(fs, rest) := digits r in
      if String.eqb fs "" then (EmptyString, s) else (fs, rest)
  | None => (EmptyString, s)
  end.

(** [e] or [E], an optional sign and at least one digit, or nothing. *)
Definition exponent (s : string) : option Z * string :=
  match (match expect "e" s with Some r => Some r | None => expect "E" s end) with
  | Some r =>
      let '(neg, r1) :=
        match expect "-" r with
        | Some r' => (true, r')
        | None =>
            match expect "+" r with
            | Some r' => (false, r')
            | None => (false, r)
            end
        end in
      let '(es, rest) := digits r1 in
      if String.eqb es "" then (None, s)
      else
        let e := Z.of_N (value_of_digits 0 es) in
        (Some (if neg then (- e)%Z else e), rest)
  | None => (None, s)
  end.

(** The number pattern of the scanner matched at the head of [s]: an
    optional minus sign and either 0 or a run of digits not starting
    with 0, then the optional fraction and exponent.  An [int] when
    neither of the two is there, a [float] otherwise. *)
Definition match_number (s : string) : option (json * string) :=
  let '(neg, s1) :=
    match expect "-" s with
    | Some r => (true, r)
    | None => (false, s)
    end in
  let integer :=
    match expect "0" s1 with
    | Some r => Some ("0", r)
    | None =>
        match s1 with
        | String c _ => if is_digit c then Some (digits s1) else None
        | EmptyString => None
        end
    end in
  match integer with
  | None => None
  | Some (ds, s2) =>
      let '(fs, s3) := fraction s2 in
      let '(e, s4) := exponent s3 in
      match fs, e with
      | EmptyString, None =>
          let n := Z.of_N (value_of_digits 0 ds) in
          Some (JInt (if neg then (- n)%Z else n), s4)
      | _, _ =>
          let e10 := match e with Some x => x | None => 0%Z end in
          Some (JFloat (of_decimal neg (value_of_digits 0 (ds ++ fs))
                          (e10 - Z.of_nat (String.length fs))), s4)
      end
  end.

Fixpoint strip_prefix (p s : string) : option string :=
  match p, s with
  | EmptyString, _ => Some s
  | String a p', String b s' => if Ascii.eqb a b then strip_prefix p' s' else None
  | String _ _, EmptyString => None
  end.

(** *** String literals *)

Inductive unit_ : Type :=
| Raw (c : ascii)
| Escaped (u : N).

Definition hex_value (c : ascii) : option N :=
  let b := byte c in
  (if (48 <=? b) && (b <=? 57) then Some (b - 48)
   else if (97 <=? b) && (b <=? 102) then Some (b - 87)
   else if (65 <=? b) && (b <=? 70) then Some (b - 55)
   else None)%N.

Definition hex4 (a b c d : ascii) : option N :=
  match hex_value a, hex_value b, hex_value c, hex_value d with
  | Some x, Some y, Some z, Some w => Some (4096 * x + 256 * y + 16 * z + w)%N
  | _, _, _, _ => None
  end.

Definition simple_escape (c : ascii) : option ascii :=
  if Ascii.eqb c quote then Some quote
  else if Ascii.eqb c "\" then Some "\"%char
  else if Ascii.eqb c "/" then Some "/"%char
  else if Ascii.eqb c "b" then Some (ascii_of_nat 8)
  else if Ascii.eqb c "f" then Some (ascii_of_nat 12)
  else if Ascii.eqb c "n" then Some (ascii_of_nat 10)
  else if Ascii.eqb c "r" then Some (ascii_of_nat 13)
  else if Ascii.eqb c "t" then Some (ascii_of_nat 9)
  else None.

(** The text after an opening quote, up to the closing one. *)
Fixpoint scan_units (s : string) : result (list unit_ * string) :=
  match s with
  | EmptyString => Error JSONDecodeError
  | String c r =>
      if Ascii.eqb c quote then Ok ([], r)
      else if Ascii.eqb c "\" then
        match r with
        | String "u"%char (String h1 (String h2 (String h3 (String h4 r')))) =>
            match hex4 h1 h2 h3 h4 with
            | Some u => '(us, rest) <- scan_units r' ;; Ok (Escaped u :: us, rest)
            | None => Error JSONDecodeError
            end
        | String e r' =>
            match simple_escape e with
            | Some x => '(us, rest) <- scan_units r' ;; Ok (Raw x :: us, rest)
            | None => Error JSONDecodeError
            end
        | EmptyString => Error JSONDecodeError
        end
      else if (byte c <? 32)%N then Error JSONDecodeError
      else '(us, rest) <- scan_units r ;; Ok (Raw c :: us, rest)
  end.

Definition is_high_surrogate (u : N) : bool := ((55296 <=? u) && (u <=? 56319))%N.
Definition is_low_surrogate (u : N) : bool := ((56320 <=? u) && (u <=? 57343))%N.

Fixpoint decode_units (us : list unit_) : string :=
  match us with
  | [] => EmptyString
  | Raw c :: r => String c (decode_units r)
  | Escaped hi :: r =>
      match r with
      | Escaped lo :: r' =>
          if is_high_surrogate hi && is_low_surrogate lo then
            Utf8.encode (65536 + (hi - 55296) * 1024 + (lo - 56320))%N
              ++ decode_units r'
          else Utf8.encode hi ++ decode_units r
      | _ => Utf8.encode hi ++ decode_units r
      end
  end.

Definition scanstring (s : string) : result (string * string) :=
  '(us, rest) <- scan_units s ;; Ok (decode_units us, rest).

(** *** Values

    Recursive descent.  Every call of one of the three functions from
    another takes one unit of fuel, and of two nested calls at least one
    consumes a character: with [2 * length s + 2] units the fuel is never
    exhausted ([scan_adequate], [loads_error] below). *)

Definition literal (s : string) : result (json * string) :=
  match strip_prefix "null" s with
  | Some r => Ok (JNull, r)
  | None =>
  match strip_prefix "true" s with
  | Some r => Ok (JBool true, r)
  | None =>
  match strip_prefix "false" s with
  | Some r => Ok (JBool false, r)
  | None =>
  match match_number s with
  | Some vr => Ok vr
  | None =>
  match strip_prefix "NaN" s with
  | Some r => Ok (JFloat NaN, r)
  | None =>
  match strip_prefix "Infinity" s with
  | Some r => Ok (JFloat (Inf false), r)
  | None =>
  match strip_prefix "-Infinity" s with
  | Some r => Ok (JFloat (Inf true), r)
  | None => Error JSONDecodeError
  end end end end end end end.

Fixpoint scan_once (fuel : nat) (s : string) {struct fuel}
  : result (json * string) :=
  match fuel with
  | O => Error RecursionError
  | S fuel' =>
      match expect quote s with
      | Some r => '(str, rest) <- scanstring r ;; Ok (JStr str, rest)
      | None =>
      match expect "{" s with
      | Some r =>
          match expect "}" (skip_ws r) with
          | Some r1 => Ok (JDict [], r1)
          | None =>
              match expect quote (skip_ws r) with
              | Some r1 => object_loop fuel' r1 []
              | None => Error JSONDecodeError
              end
          end
      | None =>
      match expect "[" s with
      | Some r =>
          match expect "]" (skip_ws r) with
          | Some r1 => Ok (JList [], r1)
          | None => array_loop fuel' (skip_ws r) []
          end
      | None => literal s
      end end end
  end

(** [s] starts after the opening quote of a key; [acc] holds the pairs
    read so far. *)
with object_loop (fuel : nat) (s : string) (acc : dict) {struct fuel}
  : result (json * string) :=
  match fuel with
  | O => Error RecursionError
  | S fuel' =>
      '(key, s1) <- scanstring s ;;
      match expect ":" (skip_ws s1) with
      | Some s2 =>
          '(value, s3) <- scan_once fuel' (skip_ws s2) ;;
          let acc' := dict_set key value acc in
          match expect "}" (skip_ws s3) with
          | Some s4 => Ok (JDict acc', s4)
          | None =>
              match expect "," (skip_ws s3) with
              | Some s4 =>
                  match expect quote (skip_ws s4) with
                  | Some s5 => object_loop fuel' s5 acc'
                  | None => Error JSONDecodeError
                  end
              | None => Error JSONDecodeError
              end
          end
      | None => Error JSONDecodeError
      end
  end

(** [s] starts at an element; [acc] holds the elements read so far. *)
with array_loop (fuel : nat) (s : string) (acc : list json) {struct fuel}
  : result (json * string) :=
  match fuel with
  | O => Error RecursionError
  | S fuel' =>
      '(value, s1) <- scan_once fuel' s ;;
      match expect "]" (skip_ws s1) with
      | Some s2 => Ok (JList (acc ++ [value]), s2)
      | None =>
          match expect "," (skip_ws s1) with
          | Some s2 => array_loop fuel' (skip_ws s2) (acc ++ [value])
          | None => Error JSONDecodeError
          end
      end
  end.

(** [json.loads(s)]: one value, surrounded by optional white space. *)
Definition loads (s : string) : result json :=
  '(obj, rest) <- scan_once (2 * String.length s + 2) (skip_ws s) ;;
  if String.eqb (skip_ws rest) "" then Ok obj else Error JSONDecodeError.

End JsonDecoder.

(** ** [re.search(r"\{[\s\S]*\}", text)] *)

Module Re.

(** The longest prefix of [s] that ends with a closing brace. *)
Fixpoint through_last_close (s : string) : option string :=
  match s with
  | EmptyString => None
  | String c r =>
      match through_last_close r with
      | Some t => Some (String c t)
      | None => if Ascii.eqb c "}" then Some (String c EmptyString) else None
      end
  end.

(** The text of the match, [json_match.group()], when there is one: the
    leftmost opening brace followed by as much as possible up to a closing
    brace.  When no closing brace follows the first opening brace, none
    follows a later one. *)
Fixpoint search (s : string) : option string :=
  match s with
  | EmptyString => None
  | String c r =>
      if Ascii.eqb c "{" then
        match through_last_close r with
        | Some t => Some (String c t)
        | None => None
        end
      else search r
  end.

End Re.

(** ** The chat-completion client *)

Record request_message : Type :=
  { role : string; content_ : string }.

(** The keyword arguments of [client.chat.completions.create]. *)
Record chat_request : Type :=
  { model : string;
    messages : list request_message;
    temperature : pyfloat }.

(** The part of the reply the handler reads:
    [response.choices[0].message.content], a [str] or [None]. *)
Record chat_message : Type := { content : option string }.
Record chat_choice : Type := { message : chat_message }.
Record chat_completion : Type := { choices : list chat_choice }.

(** A computation that may raise and may call the completion API.  The
    continuation of a call receives what the call did: its reply, or the
    exception it raised. *)
Inductive eff (A : Type) : Type :=
| Ret (a : A)
| Raise (e : exn)
| Create (req : chat_request) (k : result chat_completion -> eff A).
Arguments Ret {A} a.
Arguments Raise {A} e.
Arguments Create {A} req k.

Fixpoint ebind {A B : Type} (m : eff A) (k : A -> eff B) : eff B :=
  match m with
  | Ret a => k a
  | Raise e => Raise e
  | Create req k' => Create req (fun r => ebind (k' r) k)
  end.

Definition lift {A : Type} (m : result A) : eff A :=
  match m with
  | Ok a => Ret a
  | Error e => Raise e
  end.

(** [client.chat.completions.create(...)]: the reply, or the exception of
    the client raised at the place of the call. *)
Definition create (req : chat_request) : eff chat_completion :=
  Create req lift.

(** [try: m  except (classes): h] around a computation: also an exception
    raised by a call made inside [m] is offered to the handler. *)
Fixpoint try_except_eff {A : Type} (m : eff A) (caught : exn -> bool)
    (h : eff A) : eff A :=
  match m with
  | Ret a => Ret a
  | Raise e => if caught e then h else Raise e
  | Create req k => Create req (fun r => try_except_eff (k r) caught h)
  end.

Declare Scope eff_scope.
Delimit Scope eff_scope with eff.
Bind Scope eff_scope with eff.
Notation "x <- m ;; k" := (ebind m (fun x => k))
  (at level 61, m at next level, right associativity) : eff_scope.

(** Running a computation against a client: the outcome and the requests
    sent, in order. *)
Fixpoint run {A : Type} (client : chat_request -> result chat_completion)
    (m : eff A) : result A * list chat_request :=
  match m with
  | Ret a => (Ok a, [])
  | Raise e => (Error e, [])
  | Create req k =>
      let '(o, sent) := run client (k (client req)) in (o, req :: sent)
  end.

(** ** Python operations used by the handler *)

(** [o.get(k, default)]; [o.get(k)] is [py_get o k JNull]. *)
Definition py_get (o : json) (k : string) (default : json) : result json :=
  match o with
  | JDict d => Ok (match dict_get k d with Some v => v | None => default end)
  | _ => Error AttributeError
  end.

(** [a or b]. *)
Definition py_or (a b : result json) : result json :=
  x <- a ;; if truthy x then Ok x else b.

(** [not a and not b]. *)
Definition py_not_and_not (a b : result json) : result bool :=
  x <- a ;;
  if negb (truthy x) then y <- b ;; Ok (negb (truthy y)) else Ok false.

(** [iter(o)], run to its end. *)
Definition py_iter (o : json) : result (list json) :=
  match o with
  | JList l => Ok l
  | JStr s => Ok (map JStr (Utf8.characters s))
  | JDict d => Ok (map (fun kv => JStr (fst kv)) d)
  | _ => Error TypeError
  end.

(** [s + v] for a [str] [s]. *)
Definition py_add (s : string) (v : json) : result string :=
  match v with
  | JStr t => Ok (s ++ t)
  | _ => Error TypeError
  end.

(** [response.choices[0]]. *)
Definition first_choice (r : chat_completion) : result chat_choice :=
  match choices r with
  | c :: _ => Ok c
  | [] => Error IndexError
  end.

(** [content or ""]. *)
Definition content_or_empty (c : option string) : string :=
  match c with
  | Some s => if negb (String.eqb s "") then s else ""
  | None => ""
  end.

(** [response.choices[0].message.content or ""]. *)
Definition output_text (response : chat_completion) : result string :=
  choice <- first_choice response ;;
  Ok (content_or_empty (content (message choice))).

(** ** The handler *)

Definition SYSTEM_PROMPT : string :=
  dquoted
    ("You are an expert sales analyst. Analyze the deal and return JSON:" ++ nl ++
     "{" ++ nl ++
     "  'risks': [{'description': '...', 'severity': 'high|medium|low'}]," ++ nl ++
     "  'nextSteps': [{'action': '...', 'priority': 1, 'rationale': '...'}]," ++ nl ++
     "  'confidence': 0.0-1.0," ++ nl ++
     "  'reasoning': '2-3 sentences'" ++ nl ++
     "}" ++ nl ++
     "Be specific to the deal context. Reference actual stakeholders and dynamics.").

Definition default_question : string :=
  "What are the top risks and recommended next steps?".

(** What the [try] block catches. *)
Definition caught (e : exn) : bool :=
  match e with
  | JSONDecodeError | AttributeError => true
  | _ => false
  end.

Section Handler.

(** [str(v)] for a value that is not a [str]: the text an f-string puts
    in place of [{v}] ([None], [True], the [repr] of a number, a list or
    a dict).  The handler only passes it on. *)
Variable str_of : json -> string.

Definition format (v : json) : string :=
  match v with
  | JStr s => s
  | _ => str_of v
  end.

(** ['- ' + s.get('name', '?') + ' (' + s.get('role', '?') + ')']. *)
Definition stakeholder_line (s : json) : result string :=
  name <- py_get s "name" (JStr "?") ;;
  l <- py_add "- " name ;;
  role <- py_get s "role" (JStr "?") ;;
  l <- py_add (l ++ " (") role ;;
  Ok (l ++ ")").

(** The f-string of the handler, with the text of its seven replacement
    fields. *)
Definition prompt_text
    (company stage last_interaction pain_points stakeholders history question
     : string) : string :=
  "## Deal: " ++ company ++ nl ++
  "Stage: " ++ stage ++ nl ++
  "Last Interaction: " ++ last_interaction ++ nl ++
  nl ++
  "Pain Points:" ++ nl ++
  pain_points ++ nl ++
  nl ++
  "Stakeholders:" ++ nl ++
  stakeholders ++ nl ++
  nl ++
  "History: " ++ history ++ nl ++
  nl ++
  "---" ++ nl ++
  "Question: " ++ question ++ nl ++
  nl ++
  "Analyze this deal and provide your assessment as JSON.".

(** The replacement fields are evaluated from left to right. *)
Definition render_prompt (ctx question : json) : result string :=
  company <- py_get ctx "company" (JStr "Unknown") ;;
  stage <- py_get ctx "stage" (JStr "Unknown") ;;
  last_interaction <-
    py_or (py_get ctx "last_interaction" JNull)
          (py_get ctx "lastInteraction" (JStr "N/A")) ;;
  pain_points <-
    py_or (py_get ctx "pain_points" JNull)
          (py_get ctx "painPoints" (JList [])) ;;
  ps <- py_iter pain_points ;;
  pain_lines <- mapM (py_add "- ") ps ;;
  stakeholders <- py_get ctx "stakeholders" (JList []) ;;
  ss <- py_iter stakeholders ;;
  stakeholder_lines <- mapM stakeholder_line ss ;;
  history <- py_get ctx "history" (JStr "N/A") ;;
  Ok (prompt_text (format company) (format stage) (format last_interaction)
        (String.concat nl pain_lines) (String.concat nl stakeholder_lines)
        (format history) (format question)).

(** The [try] statement: the object found in the reply, [{}] when there
    is none or when it does not parse. *)
Definition extract (text : string) : result json :=
  try_except
    (match Re.search text with
     | Some span => JsonDecoder.loads span
     | None => Ok (JDict [])
     end)
    caught
    (Ok (JDict [])).

(** The dictionary handed to [jsonify] on the success path. *)
Definition normalize (parsed : json) : result json :=
  risks <- py_get parsed "risks" (JList []) ;;
  snake <- py_get parsed "next_steps" (JList []) ;;
  next_steps <- py_get parsed "nextSteps" snake ;;
  confidence <- py_get parsed "confidence" (JFloat (of_decimal false 5 (-1))) ;;
  reasoning <- py_get parsed "reasoning" (JStr "Unable to parse response") ;;
  Ok (JDict [("risks", risks);
             ("next_steps", next_steps);
             ("confidence", confidence);
             ("reasoning", reasoning)]).

Definition error_body (msg : string) : json := JDict [("error", JStr msg)].

(** The keyword arguments of the one completion call. *)
Definition completion_request (prompt : string) : chat_request :=
  {| model := "gpt-4o";
     messages := [ {| role := "system"; content_ := SYSTEM_PROMPT |};
                   {| role := "user"; content_ := prompt |} ];
     temperature := of_decimal false 3 (-1) |}.

(** What follows the call: the reply text, the [try] statement and the
    [return]. *)
Definition respond (response : chat_completion) : result (json * Z) :=
  text <- output_text response ;;
  parsed <- extract text ;;
  normalized <- normalize parsed ;;
  Ok (normalized, 200%Z).

(** [analyze()], with [body = request.get_json()] as its argument; the
    result is the pair of the JSON body and the HTTP status. *)
Definition analyze (body : json) : eff (json * Z) :=
 (missing <- lift (py_not_and_not (py_get body "checkpoint_id" JNull)
                                  (py_get body "checkpointId" JNull)) ;;
  if missing : bool then Ret (error_body "checkpoint_id is required", 400%Z) else
  missing <- lift (py_not_and_not (py_get body "deal_context" JNull)
                                  (py_get body "dealContext" JNull)) ;;
  if missing : bool then Ret (error_body "deal_context is required", 400%Z) else
  ctx <- lift (py_or (py_get body "deal_context" JNull)
                     (py_get body "dealContext" JNull)) ;;
  question <- lift (py_get body "question" (JStr default_question)) ;;
  prompt <- lift (render_prompt ctx question) ;;
  response <- create (completion_request prompt) ;;
  lift (respond response))%eff.

End Handler.

Arguments render_prompt str_of ctx question : simpl never.
Arguments prompt_text : simpl never.

(** ** Vocabulary of the statements *)

(** A field that is there with a value Python takes for true. *)
Definition present_nonempty (k : string) (d : dict) : bool :=
  match dict_get k d with
  | Some v => truthy v
  | None => false
  end.

Definition has_checkpoint_id (d : dict) : bool :=
  present_nonempty "checkpoint_id" d || present_nonempty "checkpointId" d.

(** The value of a field, or a default when the object lacks it. *)
Definition field_or (d : dict) (k : string) (default : json) : json :=
  match dict_get k d with
  | Some v => v
  | None => default
  end.

(** The value an alias pair resolves to: the first spelling when it holds
    a truthy value, else the second spelling or the default. *)
Definition alias_or (d : dict) (k1 k2 : string) (default : json) : json :=
  if present_nonempty k1 d then field_or d k1 JNull else field_or d k2 default.

(** The text has an opening brace with a closing brace somewhere after it. *)
Definition has_object_span (text : string) : Prop :=
  exists a b c, text = a ++ "{" ++ b ++ "}" ++ c.

(** Enough fuel: the decoder fails with [JSONDecodeError] only, and what
    it leaves is shorter than what it was given. *)
Definition adequate (r : result (json * string)) (s : string) : Prop :=
  (forall e, r = Error e -> e = JSONDecodeError)
  /\ (forall v rest, r = Ok (v, rest) -> String.length rest < String.length s).

(** The body of the response when nothing could be extracted. *)
Definition default_response : json :=
  JDict [("risks", JList []);
         ("next_steps", JList []);
         ("confidence", JFloat (of_decimal false 5 (-1)));
         ("reasoning", JStr "Unable to parse response")].

(** ** The shape of the response *)

(** The shape the contract gives to a response: [risks] a sequence of
    objects with a string [description] and a [severity] among high,
    medium and low; [next_steps] a sequence of objects with a string
    [action], an integer [priority] and a string [rationale]; [confidence]
    a number; [reasoning] a string. *)
Module AnalysisResponse.

Definition is_severity (v : json) : bool :=
  match v with
  | JStr s => String.eqb s "high" || String.eqb s "medium" || String.eqb s "low"
  | _ => false
  end.

Definition is_string (v : json) : bool :=
  match v with JStr _ => true | _ => false end.

Definition is_integer (v : json) : bool :=
  match v with JInt _ => true | _ => false end.

Definition is_number (v : json) : bool :=
  match v with JFloat _ | JInt _ => true | _ => false end.

Definition has (k : string) (p : json -> bool) (d : dict) : bool :=
  match dict_get k d with
  | Some v => p v
  | None => false
  end.

Definition is_risk (v : json) : bool :=
  match v with
  | JDict d => has "description" is_string d && has "severity" is_severity d
  | _ => false
  end.

Definition is_next_step (v : json) : bool :=
  match v with
  | JDict d =>
      has "action" is_string d && has "priority" is_integer d
      && has "rationale" is_string d
  | _ => false
  end.

Definition is_list_of (p : json -> bool) (v : json) : bool :=
  match v with
  | JList l => forallb p l
  | _ => false
  end.

Definition matches (body : json) : bool :=
  match body with
  | JDict d =>
      has "risks" (is_list_of is_risk) d
      && has "next_steps" (is_list_of is_next_step) d
      && has "confidence" is_number d
      && has "reasoning" is_string d
  | _ => false
  end.

End AnalysisResponse.

(** ** The lines of the prompt *)

(** [s.split(chr(10))]. *)
Fixpoint lines (s : string) : list string :=
  match s with
  | EmptyString => [""]
  | String c r =>
      if Ascii.eqb c (ascii_of_nat 10) then "" :: lines r
      else
        match lines r with
        | l :: ls => String c l :: ls
        | [] => [String c EmptyString]
        end
  end.

(** [xs] occur among [ys] in this relative order. *)
Fixpoint in_order (xs ys : list string) : bool :=
  match xs, ys with
  | [], _ => true
  | _ :: _, [] => false
  | x :: xs', y :: ys' =>
      if String.eqb x y then in_order xs' ys' else in_order xs ys'
  end.

(** ** The prompt *)

Definition pain_point_line (p : string) : string := "- " ++ p.

Definition stakeholder_text (name_role : string * string) : string :=
  "- " ++ fst name_role ++ " (" ++ snd name_role ++ ")".

(** [v] is a stakeholder object with this name and this role. *)
Definition is_stakeholder (v : json) (name_role : string * string) : Prop :=
  exists s, v = JDict s
            /\ dict_get "name" s = Some (JStr (fst name_role))
            /\ dict_get "role" s = Some (JStr (snd name_role)).

(** ** Vocabulary of the further properties *)

(** The value [ctx] of the handler for a request object [d]. *)
Definition deal_context_of (d : dict) : json :=
  alias_or d "deal_context" "dealContext" JNull.

(** The lines of the Pain Points block for a deal context [ctx]: the
    generator under the first [join], run to its end. *)
Definition pain_lines_of (ctx : dict) : result (list string) :=
  ps <- py_iter (alias_or ctx "pain_points" "painPoints" (JList [])) ;;
  mapM (py_add "- ") ps.

(** The lines of the Stakeholders block: the generator under the second
    [join]. *)
Definition stakeholder_lines_of (ctx : dict) : result (list string) :=
  ss <- py_iter (field_or ctx "stakeholders" (JList [])) ;;
  mapM stakeholder_line ss.

(** The prompt for the request object [d] with deal context [ctx], given
    the lines of its two blocks. *)
Definition prompt_of (str_of : json -> string) (d ctx : dict)
    (pain_lines stakeholder_lines : list string) : string :=
  prompt_text
    (format str_of (field_or ctx "company" (JStr "Unknown")))
    (format str_of (field_or ctx "stage" (JStr "Unknown")))
    (format str_of (alias_or ctx "last_interaction" "lastInteraction" (JStr "N/A")))
    (String.concat nl pain_lines)
    (String.concat nl stakeholder_lines)
    (format str_of (field_or ctx "history" (JStr "N/A")))
    (format str_of (field_or d "question" (JStr default_question))).

(** [c in s]. *)
Fixpoint contains (c : ascii) (s : string) : bool :=
  match s with
  | EmptyString => false
  | String x r => Ascii.eqb x c || contains c r
  end.

(** The field [k] of [s] is the string [x], or is missing and [x] is the
    question mark the handler puts in its place. *)
Definition names (s : dict) (k x : string) : Prop :=
  dict_get k s = Some (JStr x) \/ (dict_get k s = None /\ x = "?").

(** A stakeholder object whose name and role are strings or missing. *)
Definition is_partial_stakeholder (v : json) (name_role : string * string) : Prop :=
  exists s, v = JDict s /\ names s "name" (fst name_role)
            /\ names s "role" (snd name_role).

Definition is_object (v : json) : bool :=
  match v with JDict _ => true | _ => false end.

Definition is_str (v : json) : bool :=
  match v with JStr _ => true | _ => false end.

(** The values a [for] can iterate over. *)
Definition is_iterable (v : json) : bool :=
  match v with JList _ | JStr _ | JDict _ => true | _ => false end.

(** The fields of a deal context the handler reads. *)
Definition deal_fields : list string :=
  ["company"; "stage"; "last_interaction"; "lastInteraction"; "pain_points";
   "painPoints"; "stakeholders"; "history"].

(** ** Fixtures for the examples *)

Module Fixture.

(** The examples below only format strings. *)
Definition str_of (v : json) : string := "<object>".

(** A client whose reply carries [text]. *)
Definition replying (text : string) (req : chat_request) : result chat_completion :=
  Ok {| choices := [ {| message := {| content := Some text |} |} ] |}.

(** A client that fails with [e]. *)
Definition failing (e : exn) (req : chat_request) : result chat_completion :=
  Error e.

(** The deal context of the worked example of the contract. *)
Definition deal : dict :=
  [("company", JStr "Acme Corp");
   ("stage", JStr "Discovery");
   ("last_interaction", JStr "Demo call last week");
   ("pain_points", JList [JStr "Manual processes"; JStr "Slow approvals"]);
   ("stakeholders", JList [JDict [("name", JStr "Jane"); ("role", JStr "champion")]]);
   ("history", JStr "Initial outreach")].

Definition request : dict :=
  [("checkpoint_id", JStr "test-1");
   ("deal_context", JDict deal);
   ("question", JStr "What are the top risks?")].

Definition prompt : string :=
  "## Deal: Acme Corp" ++ nl ++
  "Stage: Discovery" ++ nl ++
  "Last Interaction: Demo call last week" ++ nl ++
  nl ++
  "Pain Points:" ++ nl ++
  "- Manual processes" ++ nl ++
  "- Slow approvals" ++ nl ++
  nl ++
  "Stakeholders:" ++ nl ++
  "- Jane (champion)" ++ nl ++
  nl ++
  "History: Initial outreach" ++ nl ++
  nl ++
  "---" ++ nl ++
  "Question: What are the top risks?" ++ nl ++
  nl ++
  "Analyze this deal and provide your assessment as JSON.".

End Fixture.

(** The reply of the worked example of the contract: prose, then a fenced
    block. *)
Definition fenced_reply : string :=
  "Here you go:" ++ nl ++
  "```json" ++ nl ++
  dquoted "{'risks':[{'description':'Budget cut','severity':'high'}],'nextSteps':[{'action':'Call CFO','priority':1,'rationale':'Confirm budget'}],'confidence':0.8,'reasoning':'Budget risk.'}" ++ nl ++
  "```".

Definition fenced_reply_object : dict :=
  [("risks", JList [JDict [("description", JStr "Budget cut"); ("severity", JStr "high")]]);
   ("nextSteps", JList [JDict [("action", JStr "Call CFO");
                               ("priority", JInt 1);
                               ("rationale", JStr "Confirm budget")]]);
   ("confidence", JFloat (of_decimal false 8 (-1)));
   ("reasoning", JStr "Budget risk.")].

(** A request that gives every alias pair in both spellings. *)
Definition aliased_deal : dict :=
  [("last_interaction", JStr "Demo call last week");
   ("lastInteraction", JStr "Email");
   ("pain_points", JList [JStr "Manual processes"]);
   ("painPoints", JList [JStr "Budget"])].

Definition aliased_request : dict :=
  [("checkpoint_id", JStr "test-1");
   ("deal_context", JDict aliased_deal);
   ("dealContext", JDict [("company", JStr "Acme Corp")])].

(** * Properties *)

Import JsonDecoder.

(** ** The decoder *)

Lemma skip_ws_length (s : string) : String.length (skip_ws s) <= String.length s.
Proof.
  induction s as [|c r IH]; cbn; [lia|].
  destruct (is_ws c); cbn; lia.
Qed.

Lemma scan_units_length (n : nat) :
  forall s us rest,
    String.length s <= n ->
    scan_units s = Ok (us, rest) -> String.length rest < String.length s.
Proof.
  induction n as [|n IH]; intros s us rest Hn H.
  - destruct s; [discriminate|cbn in Hn; lia].
  - destruct s as [|c r]; [discriminate|]. cbn in Hn. cbn [scan_units] in H.
    destruct (Ascii.eqb c quote).
    { injection H as <- <-. cbn. lia. }
    destruct (Ascii.eqb c "\").
    + destruct r as [|e r']; [discriminate|].
      assert (forall x, match simple_escape e with
                        | Some x0 => '(us0, rest0) <- scan_units r' ;; Ok (Raw x0 :: us0, rest0)
                        | None => Error JSONDecodeError
                        end = Ok (x, rest) ->
                        String.length rest < String.length (String c (String e r'))) as Hsimple.
      { intros x Hx. destruct (simple_escape e); [|discriminate].
        destruct (scan_units r') as [[us0 rest0]|] eqn:E; [|discriminate].
        cbn in Hx. injection Hx as _ <-.
        apply IH in E; cbn in *; lia. }
      destruct e as [[] [] [] [] [] [] [] []]; try (exact (Hsimple _ H)).
      destruct r' as [|h1 [|h2 [|h3 [|h4 r'']]]]; try (exact (Hsimple _ H)).
      destruct (hex4 h1 h2 h3 h4); [|discriminate].
      destruct (scan_units r'') as [[us0 rest0]|] eqn:E; [|discriminate].
      cbn in H. injection H as _ <-.
      apply IH in E; cbn in *; lia.
    + destruct (byte c <? 32)%N; [discriminate|].
      destruct (scan_units r) as [[us0 rest0]|] eqn:E; [|discriminate].
      cbn in H. injection H as _ <-.
      apply IH in E; cbn in *; lia.
Qed.

Lemma scanstring_length (s str rest : string) :
  scanstring s = Ok (str, rest) -> String.length rest < String.length s.
Proof.
  unfold scanstring. destruct (scan_units s) as [[us r]|] eqn:E; [|discriminate].
  cbn. intros H. injection H as _ <-.
  exact (scan_units_length _ _ _ _ (le_n _) E).
Qed.

Lemma scanstring_error (s : string) (e : exn) :
  scanstring s = Error e -> e = JSONDecodeError.
Proof.
  unfold scanstring.
  assert (forall n s e, String.length s <= n -> scan_units s = Error e -> e = JSONDecodeError) as H.
  { clear. induction n as [|n IH]; intros s e Hn H.
    - destruct s; [cbn in H; congruence|cbn in Hn; lia].
    - destruct s as [|c r]; [cbn in H; congruence|]. cbn in Hn. cbn [scan_units] in H.
      destruct (Ascii.eqb c _); [discriminate|].
      destruct (Ascii.eqb c "\").
      + destruct r as [|x r']; [congruence|].
        assert (match simple_escape x with
                | Some x0 => '(us0, rest0) <- scan_units r' ;; Ok (Raw x0 :: us0, rest0)
                | None => Error JSONDecodeError
                end = Error e -> e = JSONDecodeError) as Hsimple.
        { intros Hx. destruct (simple_escape x); [|congruence].
          destruct (scan_units r') as [[us0 rest0]|] eqn:E; [discriminate|].
          cbn in Hx. injection Hx as <-. apply (IH r'); [cbn in *; lia|exact E]. }
        destruct x as [[] [] [] [] [] [] [] []]; try (exact (Hsimple H)).
        destruct r' as [|h1 [|h2 [|h3 [|h4 r'']]]]; try (exact (Hsimple H)).
        destruct (hex4 h1 h2 h3 h4); [|congruence].
        destruct (scan_units r'') as [[us0 rest0]|] eqn:E; [discriminate|].
        cbn in H. injection H as <-. apply (IH r''); [cbn in *; lia|exact E].
      + destruct (byte c <? 32)%N; [congruence|].
        destruct (scan_units r) as [[us0 rest0]|] eqn:E; [discriminate|].
        cbn in H. injection H as <-. apply (IH r); [lia|exact E]. }
  destruct (scan_units s) as [[us r]|e'] eqn:E; [discriminate|].
  cbn. intros H'. injection H' as <-. exact (H _ _ _ (le_n _) E).
Qed.

Lemma digits_length (s ds rest : string) :
  digits s = (ds, rest) -> String.length rest <= String.length s.
Proof.
  revert ds rest. induction s as [|c r IH]; cbn; intros ds rest H.
  - injection H as _ <-. cbn. lia.
  - destruct (is_digit c).
    + destruct (digits r) as [ds' rest'] eqn:E. injection H as _ <-.
      specialize (IH _ _ eq_refl). lia.
    + injection H as _ <-. cbn. lia.
Qed.

Lemma expect_length (c : ascii) (s r : string) :
  expect c s = Some r -> String.length s = S (String.length r).
Proof.
  destruct s as [|x s]; cbn; [discriminate|].
  destruct (Ascii.eqb x c); [|discriminate]. now intros [= ->].
Qed.

Lemma fraction_length (s fs rest : string) :
  fraction s = (fs, rest) -> String.length rest <= String.length s.
Proof.
  unfold fraction. intros H.
  destruct (expect "." s) as [r|] eqn:E; [|injection H as _ <-; lia].
  apply expect_length in E.
  destruct (digits r) as [ds rest'] eqn:E'. apply digits_length in E'.
  destruct (String.eqb ds ""); injection H as _ <-; lia.
Qed.

Lemma exponent_length (s : string) (e : option Z) (rest : string) :
  exponent s = (e, rest) -> String.length rest <= String.length s.
Proof.
  unfold exponent. intros H.
  destruct (match expect "e" s with Some r => Some r | None => expect "E" s end)
    as [r|] eqn:E; [|injection H as _ <-; lia].
  assert (String.length s = S (String.length r)) as Hr.
  { destruct (expect "e" s) eqn:E1; [injection E as ->|];
      eapply expect_length; eassumption. }
  set (p := match expect "-" r with
            | Some r' => (true, r')
            | None => match expect "+" r with
                      | Some r' => (false, r')
                      | None => (false, r)
                      end
            end) in H.
  assert (String.length (snd p) <= String.length r) as Hp.
  { subst p. destruct (expect "-" r) eqn:E1; [apply expect_length in E1; cbn; lia|].
    destruct (expect "+" r) eqn:E2; [apply expect_length in E2; cbn; lia|].
    cbn. lia. }
  destruct p as [neg r1]. cbn in Hp.
  destruct (digits r1) as [es rest'] eqn:E'. apply digits_length in E'.
  destruct (String.eqb es ""); injection H as _ <-; lia.
Qed.

Lemma match_number_length (s : string) (v : json) (rest : string) :
  match_number s = Some (v, rest) -> String.length rest < String.length s.
Proof.
  unfold match_number. intros H.
  set (p := match expect "-" s with
            | Some r => (true, r)
            | None => (false, s)
            end) in H.
  assert (String.length (snd p) <= String.length s) as Hp.
  { subst p. destruct (expect "-" s) eqn:E1; [apply expect_length in E1; cbn; lia|].
    cbn. lia. }
  destruct p as [neg s1]. cbn in Hp.
  set (i := match expect "0" s1 with
            | Some r => Some ("0", r)
            | None =>
                match s1 with
                | String c _ => if is_digit c then Some (digits s1) else None
                | EmptyString => None
                end
            end) in H.
  assert (forall ds s2, i = Some (ds, s2) -> String.length s2 < String.length s1) as Hi.
  { subst i. intros ds s2 E. destruct (expect "0" s1) eqn:E1.
    - apply expect_length in E1. injection E as _ <-. lia.
    - destruct s1 as [|c r]; [discriminate|].
      destruct (is_digit c) eqn:Hd; [|discriminate].
      injection E as E. cbn in E. rewrite Hd in E.
      destruct (digits r) as [ds' rest'] eqn:E'. apply digits_length in E'.
      injection E as _ <-. cbn. lia. }
  destruct i as [[ds s2]|]; [|discriminate].
  specialize (Hi _ _ eq_refl).
  destruct (fraction s2) as [fs s3] eqn:Ef. apply fraction_length in Ef.
  destruct (exponent s3) as [e s4] eqn:Ee. apply exponent_length in Ee.
  destruct fs; destruct e; injection H as _ <-; lia.
Qed.

Lemma strip_prefix_length (p s r : string) :
  strip_prefix p s = Some r -> String.length r + String.length p = String.length s.
Proof.
  revert s. induction p as [|a p IH]; intros s H; cbn in H.
  - injection H as <-. cbn. lia.
  - destruct s as [|b s]; [discriminate|].
    destruct (Ascii.eqb a b); [|discriminate].
    apply IH in H. cbn. lia.
Qed.

Lemma literal_length (s : string) (v : json) (rest : string) :
  literal s = Ok (v, rest) -> String.length rest < String.length s.
Proof.
  unfold literal. intros H.
  repeat match type of H with
  | match strip_prefix ?p s with _ => _ end = _ =>
      let E := fresh "E" in
      destruct (strip_prefix p s) eqn:E;
      [apply strip_prefix_length in E; injection H as _ <-; cbn in E; lia|]
  | match match_number s with _ => _ end = _ =>
      let E := fresh "E" in
      destruct (match_number s) as [[? ?]|] eqn:E;
      [apply match_number_length in E; injection H as _ <-; lia|]
  end.
  discriminate.
Qed.

Lemma literal_error (s : string) (e : exn) :
  literal s = Error e -> e = JSONDecodeError.
Proof.
  unfold literal. intros H.
  repeat match type of H with
  | match ?x with _ => _ end = _ => destruct x; try discriminate
  end.
  congruence.
Qed.

Lemma adequate_error (s : string) : adequate (Error JSONDecodeError) s.
Proof. split; [congruence|discriminate]. Qed.

Lemma adequate_ok (v : json) (rest s : string) :
  String.length rest < String.length s -> adequate (Ok (v, rest)) s.
Proof. intros H. split; [discriminate|]. now intros ? ? [= <- <-]. Qed.

Lemma adequate_weaken (r : result (json * string)) (s s' : string) :
  adequate r s -> String.length s <= String.length s' -> adequate r s'.
Proof.
  intros [H1 H2] Hl. split; [exact H1|]. intros v rest E. specialize (H2 _ _ E). lia.
Qed.

Lemma scan_adequate (fuel : nat) :
  (forall s, 2 * String.length s + 1 <= fuel -> adequate (scan_once fuel s) s)
  /\ (forall s acc, 2 * String.length s + 2 <= fuel ->
                    adequate (object_loop fuel s acc) s)
  /\ (forall s acc, 2 * String.length s + 2 <= fuel ->
                    adequate (array_loop fuel s acc) s).
Proof.
  induction fuel as [|fuel (IHs & IHo & IHa)].
  - repeat split; intros; lia.
  - split; [|split].
    + intros s Hf. cbn [scan_once].
      destruct (expect quote s) as [r|] eqn:E1.
      { apply expect_length in E1.
        destruct (scanstring r) as [[str rest]|e] eqn:E.
        - apply scanstring_length in E. apply adequate_ok. lia.
        - apply scanstring_error in E. subst e. apply adequate_error. }
      destruct (expect "{" s) as [r|] eqn:E2.
      { apply expect_length in E2. pose proof (skip_ws_length r) as Hw.
        destruct (expect "}" (skip_ws r)) as [r1|] eqn:E3.
        - apply expect_length in E3. apply adequate_ok. lia.
        - destruct (expect quote (skip_ws r)) as [r1|] eqn:E4;
            [|apply adequate_error].
          apply expect_length in E4.
          apply adequate_weaken with r1; [apply IHo|]; lia. }
      destruct (expect "[" s) as [r|] eqn:E3.
      { apply expect_length in E3. pose proof (skip_ws_length r) as Hw.
        destruct (expect "]" (skip_ws r)) as [r1|] eqn:E4.
        - apply expect_length in E4. apply adequate_ok. lia.
        - apply adequate_weaken with (skip_ws r); [apply IHa|]; lia. }
      split.
      * intros e. apply literal_error.
      * intros v rest. apply literal_length.
    + intros s acc Hf. cbn [object_loop].
      destruct (scanstring s) as [[key s1]|e] eqn:E;
        [|apply scanstring_error in E; subst e; apply adequate_error].
      apply scanstring_length in E. cbn [bind].
      pose proof (skip_ws_length s1) as Hw1.
      destruct (expect ":" (skip_ws s1)) as [s2|] eqn:E1; [|apply adequate_error].
      apply expect_length in E1. pose proof (skip_ws_length s2) as Hw2.
      destruct (IHs (skip_ws s2)) as [He Hl]; [lia|].
      destruct (scan_once fuel (skip_ws s2)) as [[value s3]|e] eqn:E2;
        [|rewrite (He _ eq_refl); apply adequate_error].
      specialize (Hl _ _ eq_refl). cbn [bind]. cbv zeta.
      pose proof (skip_ws_length s3) as Hw3.
      destruct (expect "}" (skip_ws s3)) as [s4|] eqn:E3.
      { apply expect_length in E3. apply adequate_ok. lia. }
      destruct (expect "," (skip_ws s3)) as [s4|] eqn:E4; [|apply adequate_error].
      apply expect_length in E4. pose proof (skip_ws_length s4) as Hw4.
      destruct (expect quote (skip_ws s4)) as [s5|] eqn:E5; [|apply adequate_error].
      apply expect_length in E5.
      apply adequate_weaken with s5; [apply IHo|]; lia.
    + intros s acc Hf. cbn [array_loop].
      destruct (IHs s) as [He Hl]; [lia|].
      destruct (scan_once fuel s) as [[value s1]|e] eqn:E;
        [|rewrite (He _ eq_refl); apply adequate_error].
      specialize (Hl _ _ eq_refl). cbn [bind].
      pose proof (skip_ws_length s1) as Hw1.
      destruct (expect "]" (skip_ws s1)) as [s2|] eqn:E1.
      { apply expect_length in E1. apply adequate_ok. lia. }
      destruct (expect "," (skip_ws s1)) as [s2|] eqn:E2; [|apply adequate_error].
      apply expect_length in E2. pose proof (skip_ws_length s2) as Hw2.
      apply adequate_weaken with (skip_ws s2); [apply IHa|]; lia.
Qed.

(** [json.loads] raises nothing but [JSONDecodeError]. *)
Lemma loads_error (s : string) (e : exn) :
  loads s = Error e -> e = JSONDecodeError.
Proof.
  unfold loads. intros H.
  destruct (scan_adequate (2 * String.length s + 2)) as (Hs & _ & _).
  destruct (Hs (skip_ws s)) as [He _]; [pose proof (skip_ws_length s); lia|].
  destruct (scan_once _ _) as [[obj rest]|e'] eqn:E.
  - cbn in H. destruct (String.eqb _ _); congruence.
  - cbn in H. injection H as <-. now apply He.
Qed.

(** An object literal decodes to a dictionary. *)
Lemma object_loop_dict (fuel : nat) :
  forall s acc v rest,
    object_loop fuel s acc = Ok (v, rest) -> exists d, v = JDict d.
Proof.
  induction fuel as [|fuel IH]; intros s acc v rest H; [discriminate|].
  cbn [object_loop] in H.
  destruct (scanstring s) as [[key s1]|]; [|discriminate]. cbn [bind] in H.
  destruct (expect ":" (skip_ws s1)) as [s2|]; [|discriminate].
  destruct (scan_once fuel (skip_ws s2)) as [[value s3]|]; [|discriminate].
  cbn [bind] in H. cbv zeta in H.
  destruct (expect "}" (skip_ws s3)) as [s4|]; [injection H as <- _; eauto|].
  destruct (expect "," (skip_ws s3)) as [s4|]; [|discriminate].
  destruct (expect quote (skip_ws s4)) as [s5|]; [|discriminate].
  exact (IH _ _ _ _ H).
Qed.

Lemma loads_object (b : string) (v : json) :
  loads ("{" ++ b) = Ok v -> exists d, v = JDict d.
Proof.
  unfold loads. cbn [append skip_ws is_ws].
  change (is_ws "{") with false. cbv iota.
  set (fuel := 2 * String.length _ + 2). 
  destruct fuel as [|fuel]; [discriminate|].
  cbn [scan_once expect]. change (Ascii.eqb "{" quote) with false.
  change (Ascii.eqb "{" "{") with true. cbv iota.
  destruct (expect "}" (skip_ws b)) as [r1|].
  - cbn [bind]. destruct (String.eqb _ _); [|discriminate]. intros [= <-]. eauto.
  - destruct (expect quote (skip_ws b)) as [r1|]; [|discriminate].
    destruct (object_loop fuel r1 []) as [[obj rest]|] eqn:E; [|discriminate].
    cbn [bind]. destruct (String.eqb _ _); [|discriminate]. intros [= <-].
    exact (object_loop_dict _ _ _ _ _ E).
Qed.

(** ** Running the handler *)

Lemma ebind_lift {A B : Type} (m : result A) (k : A -> eff B) :
  ebind (lift m) k = match m with Ok a => k a | Error e => Raise e end.
Proof. destruct m; reflexivity. Qed.

Lemma run_lift {A : Type} client (m : result A) : run client (lift m) = (m, []).
Proof. destruct m; reflexivity. Qed.

(** One call, then pure code on its reply: the outcome is that of the
    call followed by the pure code, and one request is sent. *)
Lemma run_create {A : Type} client (req : chat_request)
    (k : chat_completion -> result A) :
  run client (response <- create req ;; lift (k response))%eff
  = (bind (client req) k, [req]).
Proof.
  cbn. destruct (client req) as [r|e]; cbn; [rewrite run_lift|]; reflexivity.
Qed.

Lemma py_get_dict (d : dict) (k : string) (default : json) :
  py_get (JDict d) k default = Ok (field_or d k default).
Proof. reflexivity. Qed.

Lemma truthy_field_or_null (k : string) (d : dict) :
  truthy (field_or d k JNull) = present_nonempty k d.
Proof. unfold field_or, present_nonempty. destruct (dict_get k d); reflexivity. Qed.

(** [not d.get(k1) and not d.get(k2)] on a dictionary. *)
Lemma py_not_and_not_dict (d : dict) (k1 k2 : string) :
  py_not_and_not (py_get (JDict d) k1 JNull) (py_get (JDict d) k2 JNull)
  = Ok (negb (present_nonempty k1 d || present_nonempty k2 d)).
Proof.
  unfold py_not_and_not. rewrite !py_get_dict. cbn [bind].
  rewrite !truthy_field_or_null.
  destruct (present_nonempty k1 d); reflexivity.
Qed.

(** [d.get(k1) or d.get(k2, default)] on a dictionary. *)
Lemma py_or_dict (d : dict) (k1 k2 : string) (default : json) :
  py_or (py_get (JDict d) k1 JNull) (py_get (JDict d) k2 default)
  = Ok (alias_or d k1 k2 default).
Proof.
  unfold py_or, alias_or. rewrite !py_get_dict. cbn [bind].
  rewrite truthy_field_or_null.
  destruct (present_nonempty k1 d); reflexivity.
Qed.

(** The three ways the handler can go: it raises before the call, it
    rejects the request, or it sends one request and answers from the
    reply. *)
Lemma analyze_inv (str_of : json -> string) (body : json) :
  (exists e, analyze str_of body = Raise e)
  \/ (exists msg, analyze str_of body = Ret (error_body msg, 400%Z))
  \/ (exists prompt,
        analyze str_of body
        = (response <- create (completion_request prompt) ;;
           lift (respond response))%eff).
Proof.
  unfold analyze.
  rewrite ebind_lift.
  destruct (py_not_and_not _ _) as [[|]|e]; [right; left; eauto| |left; eauto].
  rewrite ebind_lift.
  destruct (py_not_and_not _ _) as [[|]|e]; [right; left; eauto| |left; eauto].
  rewrite ebind_lift.
  destruct (py_or _ _) as [ctx|e]; [|left; eauto].
  rewrite ebind_lift.
  destruct (py_get body "question" _) as [question|e]; [|left; eauto].
  rewrite ebind_lift.
  destruct (render_prompt str_of ctx question) as [prompt|e]; [|left; eauto].
  right; right. exists prompt. reflexivity.
Qed.

(** What the handler does with a dictionary that passes both checks. *)
Lemma analyze_valid (str_of : json -> string) (d : dict) :
  has_checkpoint_id d = true ->
  present_nonempty "deal_context" d || present_nonempty "dealContext" d = true ->
  analyze str_of (JDict d)
  = (prompt <- lift (render_prompt str_of
                       (alias_or d "deal_context" "dealContext" JNull)
                       (field_or d "question" (JStr default_question))) ;;
     response <- create (completion_request prompt) ;;
     lift (respond response))%eff.
Proof.
  intros Hc Hd. unfold analyze, has_checkpoint_id in *.
  rewrite !py_not_and_not_dict, Hc, Hd, py_or_dict. reflexivity.
Qed.

(** A request without a usable deal context is rejected before any call. *)
Lemma analyze_no_deal_context (str_of : json -> string) (d : dict) :
  has_checkpoint_id d = true ->
  present_nonempty "deal_context" d = false ->
  present_nonempty "dealContext" d = false ->
  analyze str_of (JDict d) = Ret (error_body "deal_context is required", 400%Z).
Proof.
  intros Hc H1 H2. unfold analyze, has_checkpoint_id in *.
  rewrite !py_not_and_not_dict, Hc, H1, H2. reflexivity.
Qed.

Example analyze_fixture_sends_prompt :
  snd (run (Fixture.replying "") (analyze Fixture.str_of (JDict Fixture.request)))
  = [completion_request Fixture.prompt].
Proof. vm_compute. reflexivity. Qed.

(** ** Validation *)



(** A body that is not a JSON object has no [get]: the first check raises
    and nothing is sent. *)
Lemma analyze_not_an_object (str_of : json -> string) client (body : json) :
  (forall d, body <> JDict d) ->
  run client (analyze str_of body) = (Error AttributeError, []).
Proof.
  intros H. destruct body; try reflexivity. now destruct (H d).
Qed.

(** C5.  A request object with a valid checkpoint id in which neither
    [deal_context] nor [dealContext] is present is answered with status 400
    and the body [{"error": "deal_context is required"}], and no completion
    request is sent. *)
Theorem missing_deal_context_rejected :
  forall (str_of : json -> string) (client : chat_request -> result chat_completion)
         (d : dict),
    has_checkpoint_id d = true ->
    dict_get "deal_context" d = None ->
    dict_get "dealContext" d = None ->
    run client (analyze str_of (JDict d))
    = (Ok (JDict [("error", JStr "deal_context is required")], 400%Z), []).
Proof.
  intros str_of client d Hc H1 H2.
  rewrite analyze_no_deal_context; trivial;
    unfold present_nonempty; [rewrite H1 | rewrite H2]; reflexivity.
Qed.

Lemma missing_deal_context_rejected_witness :
  run (Fixture.replying "{}")
      (analyze Fixture.str_of
         (JDict [("checkpointId", JStr "test-1"); ("question", JStr "Any risks?")]))
  = (Ok (JDict [("error", JStr "deal_context is required")], 400%Z), []).
Proof.
  apply (missing_deal_context_rejected Fixture.str_of (Fixture.replying "{}")
           [("checkpointId", JStr "test-1"); ("question", JStr "Any risks?")]);
    reflexivity.
Defined.

(** C10, as stated, fails: a request whose [deal_context] is the empty
    object but which has no checkpoint id is rejected for the checkpoint
    id, and a request whose [deal_context] is empty while [dealContext]
    holds a context is not rejected at all. *)
Lemma falsy_deal_context_counterexample :
  let d1 := [("deal_context", JDict [])] in
  let d2 := [("checkpoint_id", JStr "test-1");
             ("deal_context", JDict []);
             ("dealContext", JDict Fixture.deal)] in
  (dict_get "deal_context" d1 = Some (JDict [])
   /\ truthy (JDict []) = false
   /\ run (Fixture.replying "") (analyze Fixture.str_of (JDict d1))
      = (Ok (JDict [("error", JStr "checkpoint_id is required")], 400%Z), [])
   /\ fst (run (Fixture.replying "") (analyze Fixture.str_of (JDict d1)))
      <> Ok (JDict [("error", JStr "deal_context is required")], 400%Z))
  /\ (dict_get "deal_context" d2 = Some (JDict [])
      /\ fst (run (Fixture.replying "") (analyze Fixture.str_of (JDict d2)))
         = Ok (default_response, 200%Z)).
Proof.
  cbv zeta. split; [split; [|split; [|split]]|split].
  - reflexivity.
  - reflexivity.
  - vm_compute. reflexivity.
  - vm_compute. discriminate.
  - reflexivity.
  - vm_compute. reflexivity.
Qed.

(** C10, amended.  A request object with a valid checkpoint id in which
    [deal_context] or [dealContext] is present and neither spelling holds a
    truthy value (in particular when the one supplied is the empty object)
    is answered with status 400 and the body
    [{"error": "deal_context is required"}]; no completion request is
    sent. *)
Theorem falsy_deal_context_rejected :
  forall (str_of : json -> string) (client : chat_request -> result chat_completion)
         (d : dict),
    has_checkpoint_id d = true ->
    dict_get "deal_context" d <> None \/ dict_get "dealContext" d <> None ->
    present_nonempty "deal_context" d = false ->
    present_nonempty "dealContext" d = false ->
    run client (analyze str_of (JDict d))
    = (Ok (JDict [("error", JStr "deal_context is required")], 400%Z), []).
Proof.
  intros str_of client d Hc _ H1 H2.
  rewrite analyze_no_deal_context; trivial.
Qed.

Lemma falsy_deal_context_rejected_witness :
  run (Fixture.replying "{}")
      (analyze Fixture.str_of
         (JDict [("checkpoint_id", JStr "test-1"); ("deal_context", JDict [])]))
  = (Ok (JDict [("error", JStr "deal_context is required")], 400%Z), []).
Proof.
  apply (falsy_deal_context_rejected Fixture.str_of (Fixture.replying "{}")
           [("checkpoint_id", JStr "test-1"); ("deal_context", JDict [])]);
    try reflexivity.
  left. discriminate.
Defined.

(** ** The completion call *)

(** When a request was sent and answered, the outcome is what [respond]
    makes of the answer, and that request is the only one. *)
Lemma run_analyze_answered (str_of : json -> string) client body req response :
  In req (snd (run client (analyze str_of body))) ->
  client req = Ok response ->
  run client (analyze str_of body) = (respond response, [req]).
Proof.
  intros Hin Hreq.
  destruct (analyze_inv str_of body) as [[e H]|[[msg H]|[prompt H]]];
    rewrite H in *; [contradiction|contradiction|].
  rewrite run_create in *. destruct Hin as [<-|[]].
  rewrite Hreq. reflexivity.
Qed.

(** C9.  When the completion call fails, the exception it raised is the
    outcome of the handler: it is not caught, and the handler returns
    neither a 200 nor an error body of its own. *)
Theorem upstream_failure_propagates :
  forall (str_of : json -> string) (client : chat_request -> result chat_completion)
         (body : json) (req : chat_request) (e : exn),
    In req (snd (run client (analyze str_of body))) ->
    client req = Error e ->
    run client (analyze str_of body) = (Error e, [req]).
Proof.
  intros str_of client body req e Hin Hreq.
  destruct (analyze_inv str_of body) as [[e' H]|[[msg H]|[prompt H]]];
    rewrite H in *; [contradiction|contradiction|].
  rewrite run_create in *. destruct Hin as [<-|[]].
  rewrite Hreq. reflexivity.
Qed.

Lemma upstream_failure_propagates_witness :
  run (Fixture.failing RateLimitError) (analyze Fixture.str_of (JDict Fixture.request))
  = (Error RateLimitError, [completion_request Fixture.prompt]).
Proof.
  apply (upstream_failure_propagates Fixture.str_of (Fixture.failing RateLimitError)
           (JDict Fixture.request) (completion_request Fixture.prompt) RateLimitError).
  - vm_compute. left. reflexivity.
  - reflexivity.
Defined.

(** A handler that put the call inside a [try] statement would answer
    instead: the outcome above comes from [analyze], not from [eff]. *)
Example guarded_call_is_caught :
  run (Fixture.failing RateLimitError)
      (try_except_eff
         (response <- create (completion_request Fixture.prompt) ;;
          lift (respond response))%eff
         (fun _ => true)
         (Ret (error_body "upstream failure", 502%Z)))
  = (Ok (error_body "upstream failure", 502%Z), [completion_request Fixture.prompt]).
Proof. reflexivity. Qed.

(** ** Strings *)

Lemma append_assoc (a b c : string) : (a ++ b) ++ c = a ++ (b ++ c).
Proof. induction a as [|x a IH]; cbn; [reflexivity | now rewrite IH]. Qed.

(** ** The search for an object in the reply *)

Lemma through_last_close_some (s t : string) :
  Re.through_last_close s = Some t ->
  exists b c, s = b ++ "}" ++ c /\ t = b ++ "}".
Proof.
  revert t. induction s as [|x s IH]; cbn; intros t H; [discriminate|].
  destruct (Re.through_last_close s) as [t'|].
  - injection H as <-. destruct (IH t' eq_refl) as (b & c & -> & ->).
    exists (String x b), c. split; reflexivity.
  - destruct (Ascii.eqb_spec x "}"); [|discriminate].
    injection H as <-. subst x. exists "", s. split; reflexivity.
Qed.

Lemma through_last_close_none (s : string) :
  Re.through_last_close s = None ->
  forall b c, s <> b ++ "}" ++ c.
Proof.
  induction s as [|x s IH]; cbn; intros H b c E.
  - destruct b; discriminate.
  - destruct (Re.through_last_close s) as [t'|]; [discriminate|].
    destruct (Ascii.eqb_spec x "}"); [discriminate|].
    destruct b as [|y b]; cbn in E; injection E as -> E; [congruence|].
    now apply (IH eq_refl b c).
Qed.

(** [re.search] finds a match exactly when the text has such a span. *)
Lemma search_some_iff (text : string) :
  (exists span, Re.search text = Some span) <-> has_object_span text.
Proof.
  induction text as [|x s IH]; cbn.
  - split; [intros [? H]; discriminate|intros (a & b & c & E)].
    destruct a; discriminate.
  - destruct (Ascii.eqb_spec x "{") as [->|Hx].
    + destruct (Re.through_last_close s) as [t|] eqn:Ht.
      * split; [intros _|eauto].
        destruct (through_last_close_some _ _ Ht) as (b & c & -> & _).
        exists "", b, c. reflexivity.
      * split; [intros [? H]; discriminate|intros (a & b & c & E)].
        exfalso. destruct a as [|y a]; cbn in E.
        -- injection E as E'. exact (through_last_close_none _ Ht b c E').
        -- injection E as _ E'.
           apply (through_last_close_none _ Ht (a ++ "{" ++ b) c).
           rewrite E'. rewrite !append_assoc. reflexivity.
    + rewrite IH. split; intros (a & b & c & E).
      * exists (String x a), b, c. cbn. now rewrite E.
      * destruct a as [|y a]; cbn in E; injection E as -> E; [congruence|].
        exists a, b, c. exact E.
Qed.

Lemma search_none_iff (text : string) :
  Re.search text = None <-> ~ has_object_span text.
Proof.
  rewrite <- search_some_iff. split.
  - intros H [span H']. congruence.
  - intros H. destruct (Re.search text); [exfalso; eauto|reflexivity].
Qed.

(** The match runs from the first opening brace to the last closing one. *)
Lemma search_some_span (text span : string) :
  Re.search text = Some span ->
  exists a b c, text = a ++ span ++ c /\ span = "{" ++ b ++ "}".
Proof.
  revert span. induction text as [|x s IH]; cbn; intros span H; [discriminate|].
  destruct (Ascii.eqb_spec x "{") as [->|Hx].
  - destruct (Re.through_last_close s) as [t|] eqn:Ht; [|discriminate].
    injection H as <-.
    destruct (through_last_close_some _ _ Ht) as (b & c & -> & ->).
    exists "", b, c. cbn. rewrite !append_assoc. split; reflexivity.
  - destruct (IH span H) as (a & b & c & -> & ->).
    exists (String x a), b, c. split; reflexivity.
Qed.

(** ** Extraction and normalization *)

Lemma extract_no_span (text : string) :
  ~ has_object_span text -> extract text = Ok (JDict []).
Proof.
  intros H. unfold extract. apply search_none_iff in H. now rewrite H.
Qed.

Lemma extract_decode_error (text span : string) (e : exn) :
  Re.search text = Some span ->
  JsonDecoder.loads span = Error e ->
  extract text = Ok (JDict []).
Proof.
  intros H1 H2. unfold extract. rewrite H1, H2, (loads_error _ _ H2). reflexivity.
Qed.

(** The [try] statement always ends with a dictionary. *)
Lemma extract_total (text : string) : exists d, extract text = Ok (JDict d).
Proof.
  unfold extract. destruct (Re.search text) as [span|] eqn:E; [|cbn; eauto].
  destruct (search_some_span _ _ E) as (a & b & c & _ & ->).
  destruct (JsonDecoder.loads _) as [v|e] eqn:El.
  - destruct (loads_object _ _ El) as [d ->]. cbn. eauto.
  - rewrite (loads_error _ _ El). cbn. eauto.
Qed.

Lemma normalize_dict (d : dict) :
  normalize (JDict d)
  = Ok (JDict [("risks", field_or d "risks" (JList []));
               ("next_steps",
                field_or d "nextSteps" (field_or d "next_steps" (JList [])));
               ("confidence", field_or d "confidence" (JFloat (of_decimal false 5 (-1))));
               ("reasoning", field_or d "reasoning" (JStr "Unable to parse response"))]).
Proof. reflexivity. Qed.

Lemma normalize_ok_inv (parsed out : json) :
  normalize parsed = Ok out -> exists d, parsed = JDict d.
Proof. destruct parsed; try discriminate. eauto. Qed.

Lemma respond_eq (response : chat_completion) (text : string) (d : dict) :
  output_text response = Ok text ->
  extract text = Ok (JDict d) ->
  respond response
  = Ok (JDict [("risks", field_or d "risks" (JList []));
               ("next_steps",
                field_or d "nextSteps" (field_or d "next_steps" (JList [])));
               ("confidence", field_or d "confidence" (JFloat (of_decimal false 5 (-1))));
               ("reasoning", field_or d "reasoning" (JStr "Unable to parse response"))],
        200%Z).
Proof.
  intros H1 H2. unfold respond. rewrite H1. cbn [bind]. rewrite H2. reflexivity.
Qed.



Example reply_without_braces :
  ~ has_object_span "Sorry, I cannot assess this deal."
  /\ run (Fixture.replying "Sorry, I cannot assess this deal.")
         (analyze Fixture.str_of (JDict Fixture.request))
     = (Ok (default_response, 200%Z), [completion_request Fixture.prompt]).
Proof.
  split.
  - apply search_none_iff. reflexivity.
  - vm_compute. reflexivity.
Qed.

Lemma extract_fenced_reply : extract fenced_reply = Ok (JDict fenced_reply_object).
Proof. vm_compute. reflexivity. Qed.

(** C6.  For the reply made of the prose "Here you go:", a newline and a
    json code fence around the object of the example, the handler answers
    with status 200 and the body whose [risks] is the Budget cut risk,
    [next_steps] the Call CFO step taken from [nextSteps], [confidence] 0.8
    and [reasoning] "Budget risk.". *)
Theorem fenced_reply_normalized :
  forall (str_of : json -> string) (client : chat_request -> result chat_completion)
         (body : json) (req : chat_request) (response : chat_completion),
    In req (snd (run client (analyze str_of body))) ->
    client req = Ok response ->
    output_text response = Ok fenced_reply ->
    run client (analyze str_of body)
    = (Ok (JDict [("risks", JList [JDict [("description", JStr "Budget cut");
                                          ("severity", JStr "high")]]);
                  ("next_steps", JList [JDict [("action", JStr "Call CFO");
                                               ("priority", JInt 1);
                                               ("rationale", JStr "Confirm budget")]]);
                  ("confidence", JFloat (of_decimal false 8 (-1)));
                  ("reasoning", JStr "Budget risk.")], 200%Z),
       [req]).
Proof.
  intros str_of client body req response Hin Hreq Htext.
  rewrite (run_analyze_answered _ _ _ _ _ Hin Hreq).
  rewrite (respond_eq _ _ _ Htext extract_fenced_reply). reflexivity.
Qed.

Lemma fenced_reply_normalized_witness :
  run (Fixture.replying fenced_reply) (analyze Fixture.str_of (JDict Fixture.request))
  = (Ok (JDict [("risks", JList [JDict [("description", JStr "Budget cut");
                                        ("severity", JStr "high")]]);
                ("next_steps", JList [JDict [("action", JStr "Call CFO");
                                             ("priority", JInt 1);
                                             ("rationale", JStr "Confirm budget")]]);
                ("confidence", JFloat (of_decimal false 8 (-1)));
                ("reasoning", JStr "Budget risk.")], 200%Z),
     [completion_request Fixture.prompt]).
Proof.
  apply (fenced_reply_normalized Fixture.str_of (Fixture.replying fenced_reply)
           (JDict Fixture.request) (completion_request Fixture.prompt)
           {| choices := [ {| message := {| content := Some fenced_reply |} |} ] |}).
  - vm_compute. left. reflexivity.
  - reflexivity.
  - reflexivity.
Defined.

(** ** Alias precedence in the response *)

(** C1, as stated, fails: of a reply object that has both [next_steps] and
    [nextSteps], the handler returns the [nextSteps] value. *)
Lemma next_steps_alias_counterexample :
  let snake := JList [JDict [("action", JStr "Email champion")]] in
  let camel := JList [JDict [("action", JStr "Call CFO")]] in
  let parsed := [("next_steps", snake); ("nextSteps", camel)] in
  extract (dquoted "{'next_steps': [{'action': 'Email champion'}], 'nextSteps': [{'action': 'Call CFO'}]}")
  = Ok (JDict parsed)
  /\ normalize (JDict parsed)
     = Ok (JDict [("risks", JList []);
                  ("next_steps", camel);
                  ("confidence", JFloat (of_decimal false 5 (-1)));
                  ("reasoning", JStr "Unable to parse response")])
  /\ camel <> snake.
Proof.
  cbv zeta. split; [|split].
  - vm_compute. reflexivity.
  - vm_compute. reflexivity.
  - discriminate.
Qed.

(** C1, amended.  When the extracted object has both a [next_steps] and a
    [nextSteps] field, the value of the camelCase [nextSteps] is the one
    placed in the [next_steps] field of the response. *)
Theorem next_steps_alias_precedence :
  forall (d : dict) (snake camel : json),
    dict_get "next_steps" d = Some snake ->
    dict_get "nextSteps" d = Some camel ->
    normalize (JDict d)
    = Ok (JDict [("risks", field_or d "risks" (JList []));
                 ("next_steps", camel);
                 ("confidence", field_or d "confidence" (JFloat (of_decimal false 5 (-1))));
                 ("reasoning", field_or d "reasoning" (JStr "Unable to parse response"))]).
Proof.
  intros d snake camel Hs Hc. rewrite normalize_dict.
  unfold field_or at 2. rewrite Hc. reflexivity.
Qed.

Lemma next_steps_alias_precedence_witness :
  normalize (JDict [("next_steps", JList [JStr "a"]); ("nextSteps", JList [JStr "b"])])
  = Ok (JDict [("risks", JList []);
               ("next_steps", JList [JStr "b"]);
               ("confidence", JFloat (of_decimal false 5 (-1)));
               ("reasoning", JStr "Unable to parse response")]).
Proof.
  apply (next_steps_alias_precedence
           [("next_steps", JList [JStr "a"]); ("nextSteps", JList [JStr "b"])]
           (JList [JStr "a"]) (JList [JStr "b"]));
    reflexivity.
Defined.

(** ** The shape of the response *)

Example fenced_reply_matches :
  forall b sent,
    run (Fixture.replying fenced_reply) (analyze Fixture.str_of (JDict Fixture.request))
    = (Ok (b, 200%Z), sent) ->
    AnalysisResponse.matches b = true.
Proof. intros b sent H. vm_compute in H. injection H as <- _. reflexivity. Qed.

(** C2, as stated, fails: fields of the reply object that have another
    type than the contract gives them are returned as they are, with
    status 200. *)
Lemma response_shape_counterexample :
  let reply := dquoted "{'risks': 'none', 'nextSteps': 3, 'confidence': 'high', 'reasoning': null}" in
  let body := JDict [("risks", JStr "none");
                     ("next_steps", JInt 3);
                     ("confidence", JStr "high");
                     ("reasoning", JNull)] in
  run (Fixture.replying reply) (analyze Fixture.str_of (JDict Fixture.request))
  = (Ok (body, 200%Z), [completion_request Fixture.prompt])
  /\ AnalysisResponse.matches body = false.
Proof. cbv zeta. split; vm_compute; reflexivity. Qed.

(** Every answer with status 200 comes from a reply to the one request. *)
Lemma run_analyze_200_inv (str_of : json -> string) client body b :
  fst (run client (analyze str_of body)) = Ok (b, 200%Z) ->
  exists prompt response,
    client (completion_request prompt) = Ok response
    /\ run client (analyze str_of body)
       = (respond response, [completion_request prompt]).
Proof.
  intros H.
  destruct (analyze_inv str_of body) as [[e E]|[[msg E]|[prompt E]]];
    rewrite E in *; [discriminate|discriminate|].
  rewrite run_create in *.
  destruct (client (completion_request prompt)) as [response|e] eqn:Hc;
    [|discriminate].
  exists prompt, response. split; [exact Hc|reflexivity].
Qed.

(** C2, amended.  The body of every answer with status 200 is an object
    with exactly the fields [risks], [next_steps], [confidence] and
    [reasoning], in this order.  Each field holds what the object extracted
    from the reply holds for it ([nextSteps] before [next_steps]), of
    whatever type, and the documented default where the object has no such
    field: the empty list for [risks] and [next_steps], 0.5 for
    [confidence], "Unable to parse response" for [reasoning]. *)
Theorem response_has_four_fields :
  forall (str_of : json -> string) (client : chat_request -> result chat_completion)
         (body b : json),
    fst (run client (analyze str_of body)) = Ok (b, 200%Z) ->
    exists (req : chat_request) (response : chat_completion) (text : string)
           (d : dict),
      snd (run client (analyze str_of body)) = [req]
      /\ client req = Ok response
      /\ output_text response = Ok text
      /\ extract text = Ok (JDict d)
      /\ b = JDict [("risks", field_or d "risks" (JList []));
                    ("next_steps",
                     field_or d "nextSteps" (field_or d "next_steps" (JList [])));
                    ("confidence",
                     field_or d "confidence" (JFloat (of_decimal false 5 (-1))));
                    ("reasoning",
                     field_or d "reasoning" (JStr "Unable to parse response"))].
Proof.
  intros str_of client body b H.
  destruct (run_analyze_200_inv _ _ _ _ H) as (prompt & response & Hc & Hrun).
  rewrite Hrun in *. cbn [fst snd] in *.
  unfold respond in H.
  destruct (output_text response) as [text|] eqn:Ht; [|discriminate].
  cbn [bind] in H.
  destruct (extract text) as [parsed|] eqn:He; [|discriminate].
  cbn [bind] in H.
  destruct (normalize parsed) as [out|] eqn:Hn; [|discriminate].
  destruct (normalize_ok_inv _ _ Hn) as [d ->].
  rewrite normalize_dict in Hn. injection Hn as <-.
  cbn [bind] in H. injection H as <-.
  exists (completion_request prompt), response, text, d. repeat split; trivial.
Qed.

Lemma response_has_four_fields_witness :
  exists (req : chat_request) (response : chat_completion) (text : string)
         (d : dict),
    snd (run (Fixture.replying "{}") (analyze Fixture.str_of (JDict Fixture.request)))
    = [req]
    /\ Fixture.replying "{}" req = Ok response
    /\ output_text response = Ok text
    /\ extract text = Ok (JDict d)
    /\ default_response
       = JDict [("risks", field_or d "risks" (JList []));
                ("next_steps",
                 field_or d "nextSteps" (field_or d "next_steps" (JList [])));
                ("confidence",
                 field_or d "confidence" (JFloat (of_decimal false 5 (-1))));
                ("reasoning",
                 field_or d "reasoning" (JStr "Unable to parse response"))].
Proof.
  apply (response_has_four_fields Fixture.str_of (Fixture.replying "{}")
           (JDict Fixture.request) default_response).
  vm_compute. reflexivity.
Defined.

(** ** The lines of the prompt *)

Lemma lines_not_nil (s : string) : lines s <> [].
Proof.
  induction s as [|c r IH]; cbn; [discriminate|].
  destruct (Ascii.eqb c _); [discriminate|].
  destruct (lines r); [contradiction|discriminate].
Qed.

Lemma lines_app_nl (a b : string) : lines (a ++ nl ++ b) = (lines a ++ lines b)%list.
Proof.
  induction a as [|c a IH]; [reflexivity|].
  cbn [append lines]. rewrite IH.
  destruct (Ascii.eqb c _); [reflexivity|].
  destruct (lines a) eqn:E; [now apply lines_not_nil in E|reflexivity].
Qed.

Lemma in_order_tail (x : string) (xs ys : list string) :
  in_order (x :: xs) ys = true -> in_order xs ys = true.
Proof.
  revert x xs. induction ys as [|y ys IH]; intros x xs H; [discriminate|].
  cbn in H.
  assert (in_order xs ys = true) as Hxs.
  { destruct (String.eqb x y); [exact H|exact (IH _ _ H)]. }
  destruct xs as [|x' xs']; [reflexivity|]. cbn.
  destruct (String.eqb x' y); [exact (IH _ _ Hxs)|exact Hxs].
Qed.

Lemma in_order_cons_r (xs : list string) (y : string) (ys : list string) :
  in_order xs ys = true -> in_order xs (y :: ys) = true.
Proof.
  intros H. destruct xs as [|x xs]; [reflexivity|]. cbn.
  destruct (String.eqb x y); [exact (in_order_tail _ _ _ H)|exact H].
Qed.

Lemma in_order_app_l (xs pre ys : list string) :
  in_order xs ys = true -> in_order xs (pre ++ ys) = true.
Proof.
  intros H. induction pre as [|p pre IH]; [exact H|].
  cbn. now apply in_order_cons_r.
Qed.

Example in_order_fixture_prompt :
  in_order ["- Manual processes"; "- Slow approvals"; "- Jane (champion)"]
           (lines Fixture.prompt) = true.
Proof. vm_compute. reflexivity. Qed.

(** ** The bulleted lists of the prompt *)

Lemma mapM_pain_points (ps : list string) :
  mapM (py_add "- ") (map JStr ps) = Ok (map pain_point_line ps).
Proof.
  induction ps as [|p ps IH]; [reflexivity|].
  cbn [map mapM py_add bind]. rewrite IH. reflexivity.
Qed.

Lemma stakeholder_line_text (v : json) (name_role : string * string) :
  is_stakeholder v name_role -> stakeholder_line v = Ok (stakeholder_text name_role).
Proof.
  intros (s & -> & Hn & Hr). unfold stakeholder_line, stakeholder_text.
  rewrite !py_get_dict. unfold field_or. rewrite Hn, Hr.
  cbn [bind py_add]. rewrite !append_assoc. reflexivity.
Qed.

Lemma mapM_stakeholders (vs : list json) (nrs : list (string * string)) :
  Forall2 is_stakeholder vs nrs ->
  mapM stakeholder_line vs = Ok (map stakeholder_text nrs).
Proof.
  induction 1 as [|v nr vs nrs Hv _ IH]; [reflexivity|].
  cbn [map mapM]. rewrite (stakeholder_line_text _ _ Hv), IH. reflexivity.
Qed.

(** The prompt of a deal context given as a dictionary. *)
Lemma render_prompt_dict (str_of : json -> string) (ctx : dict) (question : json) :
  render_prompt str_of (JDict ctx) question
  = (ps <- py_iter (alias_or ctx "pain_points" "painPoints" (JList [])) ;;
     pain_lines <- mapM (py_add "- ") ps ;;
     ss <- py_iter (field_or ctx "stakeholders" (JList [])) ;;
     stakeholder_lines <- mapM stakeholder_line ss ;;
     Ok (prompt_text
           (format str_of (field_or ctx "company" (JStr "Unknown")))
           (format str_of (field_or ctx "stage" (JStr "Unknown")))
           (format str_of (alias_or ctx "last_interaction" "lastInteraction" (JStr "N/A")))
           (String.concat nl pain_lines)
           (String.concat nl stakeholder_lines)
           (format str_of (field_or ctx "history" (JStr "N/A")))
           (format str_of question))).
Proof.
  unfold render_prompt. rewrite !py_or_dict, !py_get_dict. reflexivity.
Qed.

Lemma prompt_text_lists (c s li P S h q : string) :
  prompt_text c s li P S h q
  = ("## Deal: " ++ c ++ nl ++ "Stage: " ++ s ++ nl ++ "Last Interaction: " ++ li
     ++ nl ++ nl ++ "Pain Points:")
    ++ nl ++ P ++ nl ++ "" ++ nl ++ "Stakeholders:" ++ nl ++ S ++ nl
    ++ (nl ++ "History: " ++ h ++ nl ++ nl ++ "---" ++ nl ++ "Question: " ++ q
        ++ nl ++ nl ++ "Analyze this deal and provide your assessment as JSON.").
Proof. unfold prompt_text. rewrite !append_assoc. reflexivity. Qed.

(** C7.  For a valid request whose deal context has the pain points [ps]
    and the stakeholders [nrs] (name and role), the one completion request
    carries the prompt whose Pain Points block is one line "- point" per
    pain point and whose Stakeholders block is one line "- name (role)" per
    stakeholder, both in input order.  For the pain points
    "Manual processes", "Slow approvals" and the stakeholder Jane, a
    champion, the lines "- Manual processes", "- Slow approvals" and
    "- Jane (champion)" occur in the prompt in this order. *)
Theorem prompt_lists_pain_points_and_stakeholders :
  forall (str_of : json -> string) (client : chat_request -> result chat_completion)
         (d ctx : dict) (ps : list string) (vs : list json)
         (nrs : list (string * string)),
    has_checkpoint_id d = true ->
    (dict_get "deal_context" d = Some (JDict ctx)
     \/ (present_nonempty "deal_context" d = false
         /\ dict_get "dealContext" d = Some (JDict ctx))) ->
    dict_get "pain_points" ctx = Some (JList (map JStr ps)) ->
    (ps <> [] \/ dict_get "painPoints" ctx = None) ->
    dict_get "stakeholders" ctx = Some (JList vs) ->
    Forall2 is_stakeholder vs nrs ->
    exists (company stage last_interaction history question : string),
      let prompt :=
        prompt_text company stage last_interaction
          (String.concat nl (map pain_point_line ps))
          (String.concat nl (map stakeholder_text nrs))
          history question in
      snd (run client (analyze str_of (JDict d))) = [completion_request prompt]
      /\ (ps = ["Manual processes"; "Slow approvals"] ->
          nrs = [("Jane", "champion")] ->
          in_order ["- Manual processes"; "- Slow approvals"; "- Jane (champion)"]
                   (lines prompt) = true).
Proof.
  intros str_of client d ctx ps vs nrs Hc Hd Hp Hp' Hs Hvs.
  assert (ctx <> []) as Hctx by (intros ->; discriminate).
  assert (present_nonempty "deal_context" d || present_nonempty "dealContext" d = true
          /\ alias_or d "deal_context" "dealContext" JNull = JDict ctx) as [Hv Hctx'].
  { unfold alias_or, present_nonempty, field_or.
    destruct Hd as [H|[H1 H2]].
    - rewrite H. destruct ctx; [contradiction|]. split; reflexivity.
    - unfold present_nonempty in H1. rewrite H1, H2.
      destruct ctx; [contradiction|]. split; reflexivity. }
  assert (alias_or ctx "pain_points" "painPoints" (JList []) = JList (map JStr ps))
    as Hpp.
  { unfold alias_or, present_nonempty, field_or. rewrite Hp.
    destruct ps as [|p ps]; [|reflexivity].
    destruct Hp' as [H|H]; [contradiction|]. rewrite H. reflexivity. }
  rewrite (analyze_valid _ _ Hc Hv), Hctx', render_prompt_dict, Hpp.
  unfold field_or at 1. rewrite Hs.
  cbn [py_iter bind]. rewrite mapM_pain_points. cbn [bind].
  rewrite (mapM_stakeholders _ _ Hvs). cbn [bind lift ebind].
  do 5 eexists. cbv zeta. split.
  - rewrite run_create. reflexivity.
  - intros -> ->. cbn [map String.concat pain_point_line stakeholder_text fst snd].
    rewrite prompt_text_lists.
    rewrite (append_assoc "- Manual processes").
    rewrite !lines_app_nl.
    apply in_order_app_l. reflexivity.
Qed.

Lemma prompt_lists_pain_points_and_stakeholders_witness :
  exists prompt : string,
    snd (run (Fixture.replying "{}") (analyze Fixture.str_of (JDict Fixture.request)))
    = [completion_request prompt]
    /\ in_order ["- Manual processes"; "- Slow approvals"; "- Jane (champion)"]
                (lines prompt) = true.
Proof.
  destruct (prompt_lists_pain_points_and_stakeholders
              Fixture.str_of (Fixture.replying "{}")
              Fixture.request Fixture.deal ["Manual processes"; "Slow approvals"]
              [JDict [("name", JStr "Jane"); ("role", JStr "champion")]]
              [("Jane", "champion")])
    as (company & stage & last_interaction & history & question & Hsent & Hlines).
  - reflexivity.
  - left. reflexivity.
  - reflexivity.
  - left. discriminate.
  - reflexivity.
  - constructor; [|constructor].
    exists [("name", JStr "Jane"); ("role", JStr "champion")].
    repeat split; reflexivity.
  - eexists. split; [exact Hsent|]. apply Hlines; reflexivity.
Defined.

(** ** Alias precedence in the request *)

(** C8, as stated, fails: a snake_case field that is present with an empty
    value gives way to its camelCase spelling.  Here [last_interaction] is
    the empty string and [pain_points] the empty list; the prompt shows the
    values of [lastInteraction] and [painPoints].  Likewise an empty
    [deal_context] gives way to [dealContext]. *)
Lemma snake_case_precedence_counterexample :
  let ctx := [("last_interaction", JStr "");
              ("lastInteraction", JStr "Demo call");
              ("pain_points", JList []);
              ("painPoints", JList [JStr "Budget"])] in
  let d := [("checkpoint_id", JStr "test-1");
            ("deal_context", JDict []);
            ("dealContext", JDict [("company", JStr "Acme Corp")])] in
  render_prompt Fixture.str_of (JDict ctx) (JStr "Any risks?")
  = Ok (prompt_text "Unknown" "Unknown" "Demo call" "- Budget" "" "N/A" "Any risks?")
  /\ "Demo call" <> ""
  /\ snd (run (Fixture.replying "{}") (analyze Fixture.str_of (JDict d)))
     = [completion_request
          (prompt_text "Acme Corp" "Unknown" "N/A" "" "" "N/A" default_question)].
Proof.
  cbv zeta. split; [|split].
  - vm_compute. reflexivity.
  - discriminate.
  - vm_compute. reflexivity.
Qed.

(** C8, amended.  For each of the alias pairs [deal_context]/[dealContext],
    [last_interaction]/[lastInteraction] and [pain_points]/[painPoints]:
    whenever both spellings are present and the snake_case value is truthy
    (not [None], [False], zero or empty), the snake_case value is the one
    used in prompt construction: the prompt is rendered from the
    [deal_context] value, its Last Interaction line shows the
    [last_interaction] value and its Pain Points block iterates over the
    [pain_points] value. *)
Theorem snake_case_precedence_when_truthy :
  forall (str_of : json -> string),
    (forall (d : dict) (v w : json),
        has_checkpoint_id d = true ->
        dict_get "deal_context" d = Some v ->
        dict_get "dealContext" d = Some w ->
        truthy v = true ->
        analyze str_of (JDict d)
        = (prompt <- lift (render_prompt str_of v
                             (field_or d "question" (JStr default_question))) ;;
           response <- create (completion_request prompt) ;;
           lift (respond response))%eff)
    /\ (forall (ctx : dict) (question v w : json),
           dict_get "last_interaction" ctx = Some v ->
           dict_get "lastInteraction" ctx = Some w ->
           truthy v = true ->
           render_prompt str_of (JDict ctx) question
           = (ps <- py_iter (alias_or ctx "pain_points" "painPoints" (JList [])) ;;
              pain_lines <- mapM (py_add "- ") ps ;;
              ss <- py_iter (field_or ctx "stakeholders" (JList [])) ;;
              stakeholder_lines <- mapM stakeholder_line ss ;;
              Ok (prompt_text
                    (format str_of (field_or ctx "company" (JStr "Unknown")))
                    (format str_of (field_or ctx "stage" (JStr "Unknown")))
                    (format str_of v)
                    (String.concat nl pain_lines)
                    (String.concat nl stakeholder_lines)
                    (format str_of (field_or ctx "history" (JStr "N/A")))
                    (format str_of question))))
    /\ (forall (ctx : dict) (question v w : json),
           dict_get "pain_points" ctx = Some v ->
           dict_get "painPoints" ctx = Some w ->
           truthy v = true ->
           render_prompt str_of (JDict ctx) question
           = (ps <- py_iter v ;;
              pain_lines <- mapM (py_add "- ") ps ;;
              ss <- py_iter (field_or ctx "stakeholders" (JList [])) ;;
              stakeholder_lines <- mapM stakeholder_line ss ;;
              Ok (prompt_text
                    (format str_of (field_or ctx "company" (JStr "Unknown")))
                    (format str_of (field_or ctx "stage" (JStr "Unknown")))
                    (format str_of (alias_or ctx "last_interaction" "lastInteraction"
                                      (JStr "N/A")))
                    (String.concat nl pain_lines)
                    (String.concat nl stakeholder_lines)
                    (format str_of (field_or ctx "history" (JStr "N/A")))
                    (format str_of question)))).
Proof.
  intros str_of.
  assert (forall (d : dict) k1 k2 default v,
             dict_get k1 d = Some v -> truthy v = true ->
             present_nonempty k1 d = true /\ alias_or d k1 k2 default = v) as Hsnake.
  { intros d k1 k2 default v Hv Ht.
    unfold alias_or, present_nonempty, field_or. rewrite Hv, Ht. split; reflexivity. }
  split; [|split].
  - intros d v w Hc Hv _ Ht.
    destruct (Hsnake d "deal_context" "dealContext" JNull v Hv Ht) as [Hp Ha].
    rewrite analyze_valid; [rewrite Ha; reflexivity|exact Hc|].
    rewrite Hp. reflexivity.
  - intros ctx question v w Hv _ Ht.
    destruct (Hsnake ctx "last_interaction" "lastInteraction" (JStr "N/A") v Hv Ht)
      as [_ Ha].
    rewrite render_prompt_dict, Ha. reflexivity.
  - intros ctx question v w Hv _ Ht.
    destruct (Hsnake ctx "pain_points" "painPoints" (JList []) v Hv Ht) as [_ Ha].
    rewrite render_prompt_dict, Ha. reflexivity.
Qed.

Lemma snake_case_precedence_when_truthy_witness :
  snd (run (Fixture.replying "{}") (analyze Fixture.str_of (JDict aliased_request)))
  = [completion_request
       (prompt_text "Unknown" "Unknown" "Demo call last week" "- Manual processes"
          "" "N/A" default_question)]
  /\ render_prompt Fixture.str_of (JDict aliased_deal) (JStr "Any risks?")
     = Ok (prompt_text "Unknown" "Unknown" "Demo call last week" "- Manual processes"
             "" "N/A" "Any risks?").
Proof.
  destruct (snake_case_precedence_when_truthy Fixture.str_of) as (Hd & Hl & Hp).
  split.
  - rewrite (Hd aliased_request (JDict aliased_deal)
                (JDict [("company", JStr "Acme Corp")])
                eq_refl eq_refl eq_refl eq_refl).
    rewrite (Hl aliased_deal (field_or aliased_request "question" (JStr default_question))
                (JStr "Demo call last week") (JStr "Email")
                eq_refl eq_refl eq_refl).
    vm_compute. reflexivity.
  - rewrite (Hp aliased_deal (JStr "Any risks?")
                (JList [JStr "Manual processes"]) (JList [JStr "Budget"])
                eq_refl eq_refl eq_refl).
    vm_compute. reflexivity.
Defined.

(** * Further properties of the handler *)

(** ** The request sent *)

Lemma render_prompt_of (str_of : json -> string) (d ctx : dict) :
  render_prompt str_of (JDict ctx) (field_or d "question" (JStr default_question))
  = (pain_lines <- pain_lines_of ctx ;;
     stakeholder_lines <- stakeholder_lines_of ctx ;;
     Ok (prompt_of str_of d ctx pain_lines stakeholder_lines)).
Proof.
  rewrite render_prompt_dict. unfold pain_lines_of, stakeholder_lines_of, prompt_of.
  destruct (py_iter (alias_or ctx _ _ _)) as [ps|]; [|reflexivity]. cbn [bind].
  destruct (mapM (py_add "- ") ps) as [pls|]; [|reflexivity]. cbn [bind].
  destruct (py_iter (field_or ctx _ _)) as [ss|]; [|reflexivity]. cbn [bind].
  destruct (mapM stakeholder_line ss) as [sls|]; reflexivity.
Qed.

(** A request object passes both checks exactly when it has a checkpoint
    id and its deal context is truthy. *)
Lemma deal_context_truthy (d : dict) :
  present_nonempty "deal_context" d || present_nonempty "dealContext" d
  = truthy (deal_context_of d).
Proof.
  unfold deal_context_of, alias_or.
  destruct (present_nonempty "deal_context" d) eqn:E.
  - rewrite truthy_field_or_null, E. reflexivity.
  - rewrite truthy_field_or_null. reflexivity.
Qed.

(** The outcome for a request object that passes both checks. *)
Lemma run_analyze_valid (str_of : json -> string) client (d : dict) :
  has_checkpoint_id d = true ->
  truthy (deal_context_of d) = true ->
  run client (analyze str_of (JDict d))
  = match render_prompt str_of (deal_context_of d)
            (field_or d "question" (JStr default_question)) with
    | Ok prompt =>
        (bind (client (completion_request prompt)) respond,
         [completion_request prompt])
    | Error e => (Error e, [])
    end.
Proof.
  intros Hc Hd. rewrite analyze_valid; [|exact Hc|now rewrite deal_context_truthy].
  fold (deal_context_of d). rewrite ebind_lift.
  destruct (render_prompt _ _ _) as [prompt|e]; [|reflexivity].
  apply run_create.
Qed.

(** X1.  Whatever the body and the client, the handler sends at most one
    completion request, and the request it sends is always for the model
    gpt-4o at temperature 0.3, with the fixed system prompt followed by one
    user message. *)
Theorem at_most_one_request :
  forall (str_of : json -> string) (client : chat_request -> result chat_completion)
         (body : json),
    snd (run client (analyze str_of body)) = []
    \/ exists prompt : string,
         snd (run client (analyze str_of body))
         = [ {| model := "gpt-4o";
                messages := [ {| role := "system"; content_ := SYSTEM_PROMPT |};
                              {| role := "user"; content_ := prompt |} ];
                temperature := of_decimal false 3 (-1) |} ].
Proof.
  intros str_of client body.
  destruct (analyze_inv str_of body) as [[e H]|[[msg H]|[prompt H]]]; rewrite H.
  - left. reflexivity.
  - left. reflexivity.
  - right. exists prompt. rewrite run_create. reflexivity.
Qed.

(** X2.  An answer of the handler has status 400 or 200.  With 400 the
    body is one of the two error objects and nothing was sent; with 200
    one request was sent. *)
Theorem answer_is_400_or_200 :
  forall (str_of : json -> string) (client : chat_request -> result chat_completion)
         (body b : json) (status : Z),
    fst (run client (analyze str_of body)) = Ok (b, status) ->
    (status = 400%Z
     /\ snd (run client (analyze str_of body)) = []
     /\ (b = JDict [("error", JStr "checkpoint_id is required")]
         \/ b = JDict [("error", JStr "deal_context is required")]))
    \/ (status = 200%Z
        /\ exists prompt, snd (run client (analyze str_of body))
                          = [completion_request prompt]).
Proof.
  intros str_of client body b status H.
  destruct body as [| | | | | |d];
    try (rewrite analyze_not_an_object in H by discriminate; discriminate).
  destruct (has_checkpoint_id d) eqn:Hc.
  - destruct (truthy (deal_context_of d)) eqn:Hd.
    + rewrite (run_analyze_valid _ _ _ Hc Hd) in *.
      destruct (render_prompt _ _ _) as [prompt|e]; [|discriminate].
      right. cbn [fst snd] in *. split; [|eauto].
      destruct (client _) as [response|]; [|discriminate]. cbn [bind] in H.
      unfold respond in H.
      destruct (output_text response); [|discriminate]. cbn [bind] in H.
      destruct (extract _); [|discriminate]. cbn [bind] in H.
      destruct (normalize _); [|discriminate]. cbn [bind] in H. congruence.
    + rewrite <- deal_context_truthy in Hd. apply orb_false_elim in Hd as [H1 H2].
      rewrite (analyze_no_deal_context _ _ Hc H1 H2) in *.
      left. cbn in *. injection H as <- <-. auto.
  - unfold has_checkpoint_id in Hc. apply orb_false_elim in Hc as [H1 H2].
    unfold analyze in *. rewrite py_not_and_not_dict, H1, H2 in *.
    left. cbn in *. injection H as <- <-. auto.
Qed.

Lemma answer_is_400_or_200_witness :
  (400%Z = 400%Z
   /\ snd (run (Fixture.replying "{}")
              (analyze Fixture.str_of (JDict [("deal_context", JDict Fixture.deal)])))
      = []
   /\ (JDict [("error", JStr "checkpoint_id is required")]
       = JDict [("error", JStr "checkpoint_id is required")]
       \/ JDict [("error", JStr "checkpoint_id is required")]
          = JDict [("error", JStr "deal_context is required")]))
  \/ (400%Z = 200%Z
      /\ exists prompt,
          snd (run (Fixture.replying "{}")
                 (analyze Fixture.str_of (JDict [("deal_context", JDict Fixture.deal)])))
          = [completion_request prompt]).
Proof.
  apply (answer_is_400_or_200 Fixture.str_of (Fixture.replying "{}")
           (JDict [("deal_context", JDict Fixture.deal)])).
  vm_compute. reflexivity.
Defined.

(** ** Validation, further *)

(** X3.  A request object is rejected with status 400 exactly when it has
    no truthy [checkpoint_id] or [checkpointId], or no truthy [deal_context]
    or [dealContext]; a request object that has both is never answered with
    400, whatever the client replies. *)
Theorem rejected_iff_missing_field :
  forall (str_of : json -> string) (client : chat_request -> result chat_completion)
         (d : dict),
    (exists b, fst (run client (analyze str_of (JDict d))) = Ok (b, 400%Z))
    <-> has_checkpoint_id d = false
        \/ (present_nonempty "deal_context" d = false
            /\ present_nonempty "dealContext" d = false).
Proof.
  intros str_of client d. split.
  - intros [b H].
    destruct (has_checkpoint_id d) eqn:Hc; [right|left; reflexivity].
    destruct (truthy (deal_context_of d)) eqn:Hd.
    + exfalso. rewrite (run_analyze_valid _ _ _ Hc Hd) in H.
      destruct (render_prompt _ _ _) as [prompt|e]; [|discriminate].
      cbn [fst] in H.
      destruct (client _) as [response|]; [|discriminate]. cbn [bind] in H.
      unfold respond in H.
      destruct (output_text response); [|discriminate]. cbn [bind] in H.
      destruct (extract _); [|discriminate]. cbn [bind] in H.
      destruct (normalize _); [|discriminate]. cbn [bind] in H. discriminate.
    + rewrite <- deal_context_truthy in Hd. now apply orb_false_elim in Hd.
  - intros [Hc|[H1 H2]].
    + unfold has_checkpoint_id in Hc. apply orb_false_elim in Hc as [H1 H2].
      unfold analyze. rewrite py_not_and_not_dict, H1, H2. cbn. eauto.
    + destruct (has_checkpoint_id d) eqn:Hc.
      * rewrite (analyze_no_deal_context _ _ Hc H1 H2). cbn. eauto.
      * unfold has_checkpoint_id in Hc. apply orb_false_elim in Hc as [H3 H4].
        unfold analyze. rewrite py_not_and_not_dict, H3, H4. cbn. eauto.
Qed.

(** X4.  A request body that is JSON but not an object (a list, a string,
    a number, [null]) makes the handler raise [AttributeError] at its first
    check: there is no 400 answer and no request is sent. *)
Theorem body_not_an_object_raises :
  forall (str_of : json -> string) (client : chat_request -> result chat_completion)
         (body : json),
    is_object body = false ->
    run client (analyze str_of body) = (Error AttributeError, []).
Proof.
  intros str_of client body H. apply analyze_not_an_object.
  intros d ->. discriminate.
Qed.

Lemma body_not_an_object_raises_witness :
  run (Fixture.replying "{}")
      (analyze Fixture.str_of (JList [JDict Fixture.request]))
  = (Error AttributeError, []).
Proof.
  apply (body_not_an_object_raises Fixture.str_of (Fixture.replying "{}")
           (JList [JDict Fixture.request])).
  reflexivity.
Defined.

(** X5.  Of a request object the handler reads [deal_context],
    [dealContext] and [question]; of the checkpoint id it only tests that
    one is there.  Two requests that both have a checkpoint id and agree on
    these three fields are handled alike, whatever their checkpoint ids and
    their other fields. *)
Theorem request_read_through_three_fields :
  forall (str_of : json -> string) (d d' : dict),
    has_checkpoint_id d = true ->
    has_checkpoint_id d' = true ->
    dict_get "deal_context" d = dict_get "deal_context" d' ->
    dict_get "dealContext" d = dict_get "dealContext" d' ->
    dict_get "question" d = dict_get "question" d' ->
    analyze str_of (JDict d) = analyze str_of (JDict d').
Proof.
  intros str_of d d' Hc Hc' H1 H2 H3.
  unfold analyze, has_checkpoint_id in *.
  rewrite !py_not_and_not_dict, !py_or_dict, !py_get_dict, Hc, Hc'.
  unfold alias_or, present_nonempty, field_or. rewrite H1, H2, H3. reflexivity.
Qed.

Lemma request_read_through_three_fields_witness :
  analyze Fixture.str_of (JDict Fixture.request)
  = analyze Fixture.str_of
      (JDict [("trace", JBool true);
              ("question", JStr "What are the top risks?");
              ("checkpointId", JInt 7);
              ("deal_context", JDict Fixture.deal)]).
Proof.
  apply (request_read_through_three_fields Fixture.str_of Fixture.request
           [("trace", JBool true);
            ("question", JStr "What are the top risks?");
            ("checkpointId", JInt 7);
            ("deal_context", JDict Fixture.deal)]);
    reflexivity.
Defined.

(** X6.  Of a deal context the prompt shows the eight fields [company],
    [stage], [last_interaction], [lastInteraction], [pain_points],
    [painPoints], [stakeholders] and [history]: two deal contexts that agree
    on them give the same prompt, or fail alike, whatever else they hold and
    in whatever order. *)
Theorem prompt_read_through_deal_fields :
  forall (str_of : json -> string) (ctx ctx' : dict) (question : json),
    (forall k, In k deal_fields -> dict_get k ctx = dict_get k ctx') ->
    render_prompt str_of (JDict ctx) question
    = render_prompt str_of (JDict ctx') question.
Proof.
  intros str_of ctx ctx' question H.
  rewrite !render_prompt_dict.
  unfold alias_or, present_nonempty, field_or.
  rewrite !(H "company"), !(H "stage"), !(H "last_interaction"),
    !(H "lastInteraction"), !(H "pain_points"), !(H "painPoints"),
    !(H "stakeholders"), !(H "history") by (cbn; tauto).
  reflexivity.
Qed.

Lemma prompt_read_through_deal_fields_witness :
  render_prompt Fixture.str_of (JDict Fixture.deal) (JStr "Any risks?")
  = render_prompt Fixture.str_of
      (JDict (("owner", JStr "Sam") :: rev Fixture.deal)) (JStr "Any risks?").
Proof.
  apply (prompt_read_through_deal_fields Fixture.str_of Fixture.deal
           (("owner", JStr "Sam") :: rev Fixture.deal) (JStr "Any risks?")).
  intros k Hk. cbn in Hk.
  repeat (destruct Hk as [<-|Hk]; [reflexivity|]). contradiction.
Defined.

(** ** The prompt, further *)

Lemma deal_context_of_dict (d ctx : dict) :
  deal_context_of d = JDict ctx -> ctx <> [] -> truthy (deal_context_of d) = true.
Proof. intros -> H. destruct ctx; [contradiction|reflexivity]. Qed.

Lemma dict_get_not_nil (k : string) (d : dict) (v : json) :
  dict_get k d = Some v -> d <> [].
Proof. intros H ->. discriminate. Qed.

(** The outcome once the two blocks of the prompt are rendered. *)
Lemma run_analyze_prompt (str_of : json -> string) client (d ctx : dict)
    (pain_lines stakeholder_lines : list string) :
  has_checkpoint_id d = true ->
  deal_context_of d = JDict ctx ->
  ctx <> [] ->
  pain_lines_of ctx = Ok pain_lines ->
  stakeholder_lines_of ctx = Ok stakeholder_lines ->
  run client (analyze str_of (JDict d))
  = (bind (client (completion_request
                     (prompt_of str_of d ctx pain_lines stakeholder_lines)))
          respond,
     [completion_request (prompt_of str_of d ctx pain_lines stakeholder_lines)]).
Proof.
  intros Hc Hd Hn Hp Hs.
  rewrite (run_analyze_valid _ _ _ Hc (deal_context_of_dict _ _ Hd Hn)).
  rewrite Hd, render_prompt_of, Hp, Hs. reflexivity.
Qed.

(** The outcome when a block of the prompt fails to render. *)
Lemma run_analyze_prompt_error (str_of : json -> string) client (d ctx : dict)
    (e : exn) :
  has_checkpoint_id d = true ->
  deal_context_of d = JDict ctx ->
  ctx <> [] ->
  pain_lines_of ctx = Error e
  \/ (exists pain_lines, pain_lines_of ctx = Ok pain_lines)
     /\ stakeholder_lines_of ctx = Error e ->
  run client (analyze str_of (JDict d)) = (Error e, []).
Proof.
  intros Hc Hd Hn H.
  rewrite (run_analyze_valid _ _ _ Hc (deal_context_of_dict _ _ Hd Hn)).
  rewrite Hd, render_prompt_of.
  destruct H as [H|[[pls Hp] Hs]]; [rewrite H|rewrite Hp, Hs]; reflexivity.
Qed.

(** X7.  The defaults of the prompt: for a valid request without
    [question] whose deal context has none of the eight fields, the prompt
    sent names the company and the stage Unknown, the last interaction and
    the history N/A, has empty Pain Points and Stakeholders blocks and asks
    the default question. *)
Theorem prompt_defaults :
  forall (str_of : json -> string) (client : chat_request -> result chat_completion)
         (d ctx : dict),
    has_checkpoint_id d = true ->
    deal_context_of d = JDict ctx ->
    ctx <> [] ->
    (forall k, In k deal_fields -> dict_get k ctx = None) ->
    dict_get "question" d = None ->
    snd (run client (analyze str_of (JDict d)))
    = [completion_request
         (prompt_text "Unknown" "Unknown" "N/A" "" "" "N/A"
            "What are the top risks and recommended next steps?")].
Proof.
  intros str_of client d ctx Hc Hd Hn Hk Hq.
  assert (pain_lines_of ctx = Ok [] /\ stakeholder_lines_of ctx = Ok []) as [Hp Hs].
  { unfold pain_lines_of, stakeholder_lines_of, alias_or, present_nonempty, field_or.
    rewrite (Hk "pain_points"), (Hk "painPoints"), (Hk "stakeholders") by (cbn; tauto).
    split; reflexivity. }
  rewrite (run_analyze_prompt _ _ _ _ _ _ Hc Hd Hn Hp Hs). cbn [snd].
  unfold prompt_of, alias_or, present_nonempty, field_or.
  rewrite (Hk "company"), (Hk "stage"), (Hk "last_interaction"),
    (Hk "lastInteraction"), (Hk "history"), Hq by (cbn; tauto).
  reflexivity.
Qed.

Lemma prompt_defaults_witness :
  snd (run (Fixture.replying "{}")
         (analyze Fixture.str_of
            (JDict [("checkpoint_id", JStr "test-1");
                    ("dealContext", JDict [("owner", JStr "Sam")])])))
  = [completion_request
       (prompt_text "Unknown" "Unknown" "N/A" "" "" "N/A"
          "What are the top risks and recommended next steps?")].
Proof.
  apply (prompt_defaults Fixture.str_of (Fixture.replying "{}")
           [("checkpoint_id", JStr "test-1");
            ("dealContext", JDict [("owner", JStr "Sam")])]
           [("owner", JStr "Sam")]).
  - reflexivity.
  - reflexivity.
  - discriminate.
  - intros k Hk. cbn in Hk.
    repeat (destruct Hk as [<-|Hk]; [reflexivity|]). contradiction.
  - reflexivity.
Defined.

Lemma mapM_py_add_error (ps : list json) :
  Exists (fun p => is_str p = false) ps ->
  mapM (py_add "- ") ps = Error TypeError.
Proof.
  induction 1 as [p ps Hp|p ps _ IH]; cbn [mapM].
  - destruct p; try discriminate; reflexivity.
  - destruct p; try reflexivity. cbn [py_add bind]. rewrite IH. reflexivity.
Qed.

(** X8.  A pain point that is not a string makes the handler raise
    [TypeError] while it renders the prompt: no request is sent and there is
    no answer. *)
Theorem non_string_pain_point_raises :
  forall (str_of : json -> string) (client : chat_request -> result chat_completion)
         (d ctx : dict) (ps : list json),
    has_checkpoint_id d = true ->
    deal_context_of d = JDict ctx ->
    dict_get "pain_points" ctx = Some (JList ps) ->
    Exists (fun p => is_str p = false) ps ->
    run client (analyze str_of (JDict d)) = (Error TypeError, []).
Proof.
  intros str_of client d ctx ps Hc Hd Hp Hex.
  apply run_analyze_prompt_error with ctx; trivial.
  - exact (dict_get_not_nil _ _ _ Hp).
  - left. unfold pain_lines_of, alias_or, present_nonempty, field_or. rewrite Hp.
    destruct ps as [|p ps]; [inversion Hex|].
    cbn [truthy py_iter bind]. now apply mapM_py_add_error.
Qed.

Lemma non_string_pain_point_raises_witness :
  run (Fixture.replying "{}")
      (analyze Fixture.str_of
         (JDict [("checkpoint_id", JStr "test-1");
                 ("deal_context",
                  JDict [("pain_points", JList [JStr "Budget"; JInt 3])])]))
  = (Error TypeError, []).
Proof.
  apply (non_string_pain_point_raises Fixture.str_of (Fixture.replying "{}")
           [("checkpoint_id", JStr "test-1");
            ("deal_context", JDict [("pain_points", JList [JStr "Budget"; JInt 3])])]
           [("pain_points", JList [JStr "Budget"; JInt 3])]
           [JStr "Budget"; JInt 3]).
  - reflexivity.
  - reflexivity.
  - reflexivity.
  - right. left. reflexivity.
Defined.

(** X9.  A deal context that is truthy but not an object (a string, a
    number, a list, [true]) passes validation and then makes the handler
    raise [AttributeError]: no request is sent and there is no answer. *)
Theorem deal_context_not_an_object_raises :
  forall (str_of : json -> string) (client : chat_request -> result chat_completion)
         (d : dict),
    has_checkpoint_id d = true ->
    truthy (deal_context_of d) = true ->
    is_object (deal_context_of d) = false ->
    run client (analyze str_of (JDict d)) = (Error AttributeError, []).
Proof.
  intros str_of client d Hc Ht Ho.
  rewrite (run_analyze_valid _ _ _ Hc Ht).
  destruct (deal_context_of d); try discriminate; reflexivity.
Qed.

Lemma deal_context_not_an_object_raises_witness :
  run (Fixture.replying "{}")
      (analyze Fixture.str_of
         (JDict [("checkpoint_id", JStr "test-1");
                 ("deal_context", JStr "Acme Corp, Discovery")]))
  = (Error AttributeError, []).
Proof.
  apply (deal_context_not_an_object_raises Fixture.str_of (Fixture.replying "{}")
           [("checkpoint_id", JStr "test-1");
            ("deal_context", JStr "Acme Corp, Discovery")]);
    reflexivity.
Defined.

(** X10.  Only a missing [stakeholders] field gives the empty block: a
    [stakeholders] that is present and not iterable ([null], a number, a
    Boolean) makes the handler raise [TypeError] once the pain points are
    rendered; no request is sent. *)
Theorem stakeholders_not_iterable_raises :
  forall (str_of : json -> string) (client : chat_request -> result chat_completion)
         (d ctx : dict) (v : json) (pain_lines : list string),
    has_checkpoint_id d = true ->
    deal_context_of d = JDict ctx ->
    pain_lines_of ctx = Ok pain_lines ->
    dict_get "stakeholders" ctx = Some v ->
    is_iterable v = false ->
    run client (analyze str_of (JDict d)) = (Error TypeError, []).
Proof.
  intros str_of client d ctx v pls Hc Hd Hp Hs Hv.
  apply run_analyze_prompt_error with ctx; trivial.
  - exact (dict_get_not_nil _ _ _ Hs).
  - right. split; [eauto|].
    unfold stakeholder_lines_of, field_or. rewrite Hs.
    destruct v; try discriminate; reflexivity.
Qed.

Lemma stakeholders_not_iterable_raises_witness :
  run (Fixture.replying "{}")
      (analyze Fixture.str_of
         (JDict [("checkpoint_id", JStr "test-1");
                 ("deal_context",
                  JDict [("company", JStr "Acme Corp"); ("stakeholders", JNull)])]))
  = (Error TypeError, []).
Proof.
  apply (stakeholders_not_iterable_raises Fixture.str_of (Fixture.replying "{}")
           [("checkpoint_id", JStr "test-1");
            ("deal_context",
             JDict [("company", JStr "Acme Corp"); ("stakeholders", JNull)])]
           [("company", JStr "Acme Corp"); ("stakeholders", JNull)]
           JNull []);
    reflexivity.
Defined.

Lemma partial_stakeholder_line (v : json) (name_role : string * string) :
  is_partial_stakeholder v name_role ->
  stakeholder_line v = Ok (stakeholder_text name_role).
Proof.
  intros (s & -> & Hn & Hr). unfold stakeholder_line, stakeholder_text.
  rewrite !py_get_dict. unfold field_or.
  destruct Hn as [Hn|[Hn ->]], Hr as [Hr|[Hr ->]]; rewrite Hn, Hr;
    cbn [bind py_add]; rewrite !append_assoc; reflexivity.
Qed.

Lemma mapM_partial_stakeholders (vs : list json) (nrs : list (string * string)) :
  Forall2 is_partial_stakeholder vs nrs ->
  mapM stakeholder_line vs = Ok (map stakeholder_text nrs).
Proof.
  induction 1 as [|v nr vs nrs Hv _ IH]; [reflexivity|].
  cbn [map mapM]. rewrite (partial_stakeholder_line _ _ Hv), IH. reflexivity.
Qed.

(** X11.  A stakeholder object without [name] or without [role] is
    rendered with a question mark in its place: for stakeholders whose
    names and roles are strings or missing, the Stakeholders block of the
    prompt sent has one line "- name (role)" per stakeholder, in order,
    with "?" for what is missing. *)
Theorem stakeholders_block_with_missing_fields :
  forall (str_of : json -> string) (client : chat_request -> result chat_completion)
         (d ctx : dict) (vs : list json) (nrs : list (string * string))
         (pain_lines : list string),
    has_checkpoint_id d = true ->
    deal_context_of d = JDict ctx ->
    pain_lines_of ctx = Ok pain_lines ->
    dict_get "stakeholders" ctx = Some (JList vs) ->
    Forall2 is_partial_stakeholder vs nrs ->
    snd (run client (analyze str_of (JDict d)))
    = [completion_request
         (prompt_of str_of d ctx pain_lines (map stakeholder_text nrs))].
Proof.
  intros str_of client d ctx vs nrs pls Hc Hd Hp Hs Hvs.
  rewrite (run_analyze_prompt str_of client d ctx pls (map stakeholder_text nrs));
    trivial.
  - exact (dict_get_not_nil _ _ _ Hs).
  - unfold stakeholder_lines_of, field_or. rewrite Hs. cbn [py_iter bind].
    now apply mapM_partial_stakeholders.
Qed.

Lemma stakeholders_block_with_missing_fields_witness :
  snd (run (Fixture.replying "{}")
         (analyze Fixture.str_of
            (JDict [("checkpoint_id", JStr "test-1");
                    ("deal_context",
                     JDict [("stakeholders",
                             JList [JDict [("name", JStr "Jane")];
                                    JDict [("role", JStr "buyer")];
                                    JDict []])])])))
  = [completion_request
       (prompt_text "Unknown" "Unknown" "N/A" ""
          ("- Jane (?)" ++ nl ++ "- ? (buyer)" ++ nl ++ "- ? (?)")
          "N/A" default_question)].
Proof.
  apply (stakeholders_block_with_missing_fields Fixture.str_of (Fixture.replying "{}")
           [("checkpoint_id", JStr "test-1");
            ("deal_context",
             JDict [("stakeholders",
                     JList [JDict [("name", JStr "Jane")];
                            JDict [("role", JStr "buyer")];
                            JDict []])])]
           [("stakeholders",
             JList [JDict [("name", JStr "Jane")];
                    JDict [("role", JStr "buyer")];
                    JDict []])]
           [JDict [("name", JStr "Jane")]; JDict [("role", JStr "buyer")]; JDict []]
           [("Jane", "?"); ("?", "buyer"); ("?", "?")]
           []); try reflexivity.
  repeat constructor.
  - exists [("name", JStr "Jane")]. repeat split; [left|right]; auto.
  - exists [("role", JStr "buyer")]. repeat split; [right|left]; auto.
  - exists []. repeat split; right; auto.
Defined.

(** X12.  [pain_points] given as one non-empty string instead of a list
    is iterated over character by character: the Pain Points block of the
    prompt sent has one line "- c" per character of the string. *)
Theorem pain_points_string_is_split :
  forall (str_of : json -> string) (client : chat_request -> result chat_completion)
         (d ctx : dict) (s : string) (stakeholder_lines : list string),
    has_checkpoint_id d = true ->
    deal_context_of d = JDict ctx ->
    dict_get "pain_points" ctx = Some (JStr s) ->
    s <> "" ->
    stakeholder_lines_of ctx = Ok stakeholder_lines ->
    snd (run client (analyze str_of (JDict d)))
    = [completion_request
         (prompt_of str_of d ctx (map pain_point_line (Utf8.characters s))
            stakeholder_lines)].
Proof.
  intros str_of client d ctx s sls Hc Hd Hp Hs Hsl.
  rewrite (run_analyze_prompt str_of client d ctx
             (map pain_point_line (Utf8.characters s)) sls); trivial.
  - exact (dict_get_not_nil _ _ _ Hp).
  - unfold pain_lines_of, alias_or, present_nonempty, field_or. rewrite Hp.
    cbn [truthy]. apply String.eqb_neq in Hs. rewrite Hs.
    cbn [negb py_iter bind]. apply mapM_pain_points.
Qed.

Lemma pain_points_string_is_split_witness :
  snd (run (Fixture.replying "{}")
         (analyze Fixture.str_of
            (JDict [("checkpoint_id", JStr "test-1");
                    ("deal_context", JDict [("pain_points", JStr "Slow")])])))
  = [completion_request
       (prompt_text "Unknown" "Unknown" "N/A"
          ("- S" ++ nl ++ "- l" ++ nl ++ "- o" ++ nl ++ "- w")
          "" "N/A" default_question)].
Proof.
  apply (pain_points_string_is_split Fixture.str_of (Fixture.replying "{}")
           [("checkpoint_id", JStr "test-1");
            ("deal_context", JDict [("pain_points", JStr "Slow")])]
           [("pain_points", JStr "Slow")] "Slow" []);
    try reflexivity.
  discriminate.
Defined.

Lemma mapM_stakeholder_line_error (good : list json) (nrs : list (string * string))
    (bad : json) (rest : list json) :
  Forall2 is_partial_stakeholder good nrs ->
  is_object bad = false ->
  mapM stakeholder_line (good ++ bad :: rest) = Error AttributeError.
Proof.
  intros Hg Hb. induction Hg as [|v nr vs nrs' Hv _ IH]; cbn [app mapM].
  - destruct bad; try discriminate; reflexivity.
  - rewrite (partial_stakeholder_line _ _ Hv). cbn [bind]. rewrite IH. reflexivity.
Qed.

(** X13.  A stakeholder that is not an object (a bare name, say) makes
    the handler raise [AttributeError] when the stakeholders before it are
    well formed and the pain points are rendered; no request is sent. *)
Theorem stakeholder_not_an_object_raises :
  forall (str_of : json -> string) (client : chat_request -> result chat_completion)
         (d ctx : dict) (good : list json) (nrs : list (string * string))
         (bad : json) (rest : list json) (pain_lines : list string),
    has_checkpoint_id d = true ->
    deal_context_of d = JDict ctx ->
    pain_lines_of ctx = Ok pain_lines ->
    dict_get "stakeholders" ctx = Some (JList (good ++ bad :: rest)) ->
    Forall2 is_partial_stakeholder good nrs ->
    is_object bad = false ->
    run client (analyze str_of (JDict d)) = (Error AttributeError, []).
Proof.
  intros str_of client d ctx good nrs bad rest pls Hc Hd Hp Hs Hg Hb.
  apply run_analyze_prompt_error with ctx; trivial.
  - exact (dict_get_not_nil _ _ _ Hs).
  - right. split; [eauto|].
    unfold stakeholder_lines_of, field_or. rewrite Hs. cbn [py_iter bind].
    now apply mapM_stakeholder_line_error with nrs.
Qed.

Lemma stakeholder_not_an_object_raises_witness :
  run (Fixture.replying "{}")
      (analyze Fixture.str_of
         (JDict [("checkpoint_id", JStr "test-1");
                 ("deal_context",
                  JDict [("stakeholders",
                          JList [JDict [("name", JStr "Jane")]; JStr "Bob"])])]))
  = (Error AttributeError, []).
Proof.
  apply (stakeholder_not_an_object_raises Fixture.str_of (Fixture.replying "{}")
           [("checkpoint_id", JStr "test-1");
            ("deal_context",
             JDict [("stakeholders",
                     JList [JDict [("name", JStr "Jane")]; JStr "Bob"])])]
           [("stakeholders", JList [JDict [("name", JStr "Jane")]; JStr "Bob"])]
           [JDict [("name", JStr "Jane")]] [("Jane", "?")] (JStr "Bob") [] []);
    try reflexivity.
  repeat constructor.
  exists [("name", JStr "Jane")]. repeat split; [left|right]; auto.
Defined.

(** X14.  Fallback of the alias pairs.  When the snake_case spelling is
    missing or holds a falsy value, the prompt is built from the camelCase
    spelling: from a truthy [dealContext]; from [lastInteraction], or N/A
    when that is missing; from [painPoints], or the empty list when that is
    missing.  A camelCase value that is present is used as it is, also when
    it is empty. *)
Theorem camel_case_fallback :
  forall (str_of : json -> string),
    (forall (d : dict) (v : json),
        has_checkpoint_id d = true ->
        present_nonempty "deal_context" d = false ->
        dict_get "dealContext" d = Some v ->
        truthy v = true ->
        analyze str_of (JDict d)
        = (prompt <- lift (render_prompt str_of v
                             (field_or d "question" (JStr default_question))) ;;
           response <- create (completion_request prompt) ;;
           lift (respond response))%eff)
    /\ (forall (ctx : dict) (question : json),
           present_nonempty "last_interaction" ctx = false ->
           render_prompt str_of (JDict ctx) question
           = (ps <- py_iter (alias_or ctx "pain_points" "painPoints" (JList [])) ;;
              pain_lines <- mapM (py_add "- ") ps ;;
              ss <- py_iter (field_or ctx "stakeholders" (JList [])) ;;
              stakeholder_lines <- mapM stakeholder_line ss ;;
              Ok (prompt_text
                    (format str_of (field_or ctx "company" (JStr "Unknown")))
                    (format str_of (field_or ctx "stage" (JStr "Unknown")))
                    (format str_of (field_or ctx "lastInteraction" (JStr "N/A")))
                    (String.concat nl pain_lines)
                    (String.concat nl stakeholder_lines)
                    (format str_of (field_or ctx "history" (JStr "N/A")))
                    (format str_of question))))
    /\ (forall (ctx : dict) (question : json),
           present_nonempty "pain_points" ctx = false ->
           render_prompt str_of (JDict ctx) question
           = (ps <- py_iter (field_or ctx "painPoints" (JList [])) ;;
              pain_lines <- mapM (py_add "- ") ps ;;
              ss <- py_iter (field_or ctx "stakeholders" (JList [])) ;;
              stakeholder_lines <- mapM stakeholder_line ss ;;
              Ok (prompt_text
                    (format str_of (field_or ctx "company" (JStr "Unknown")))
                    (format str_of (field_or ctx "stage" (JStr "Unknown")))
                    (format str_of (alias_or ctx "last_interaction" "lastInteraction"
                                      (JStr "N/A")))
                    (String.concat nl pain_lines)
                    (String.concat nl stakeholder_lines)
                    (format str_of (field_or ctx "history" (JStr "N/A")))
                    (format str_of question)))).
Proof.
  intros str_of. split; [|split].
  - intros d v Hc Hs Hv Ht.
    assert (present_nonempty "dealContext" d = true) as Hp
        by (unfold present_nonempty; now rewrite Hv).
    rewrite analyze_valid; [|exact Hc|now rewrite Hs, Hp].
    unfold alias_or, field_or. rewrite Hs, Hv. reflexivity.
  - intros ctx question Hs. rewrite render_prompt_dict.
    unfold alias_or at 2. rewrite Hs. reflexivity.
  - intros ctx question Hs. rewrite render_prompt_dict.
    unfold alias_or at 1. rewrite Hs. reflexivity.
Qed.

Lemma camel_case_fallback_witness :
  snd (run (Fixture.replying "{}")
         (analyze Fixture.str_of
            (JDict [("checkpointId", JStr "test-1");
                    ("deal_context", JDict []);
                    ("dealContext",
                     JDict [("last_interaction", JNull);
                            ("lastInteraction", JStr "");
                            ("painPoints", JList [JStr "Budget"])])])))
  = [completion_request
       (prompt_text "Unknown" "Unknown" "" "- Budget" "" "N/A" default_question)].
Proof.
  destruct (camel_case_fallback Fixture.str_of) as (Hd & Hl & Hp).
  rewrite (Hd [("checkpointId", JStr "test-1");
               ("deal_context", JDict []);
               ("dealContext",
                JDict [("last_interaction", JNull);
                       ("lastInteraction", JStr "");
                       ("painPoints", JList [JStr "Budget"])])]
              (JDict [("last_interaction", JNull);
                      ("lastInteraction", JStr "");
                      ("painPoints", JList [JStr "Budget"])])
              eq_refl eq_refl eq_refl eq_refl).
  rewrite (Hl [("last_interaction", JNull);
               ("lastInteraction", JStr "");
               ("painPoints", JList [JStr "Budget"])]
              (field_or [("checkpointId", JStr "test-1");
                         ("deal_context", JDict []);
                         ("dealContext",
                          JDict [("last_interaction", JNull);
                                 ("lastInteraction", JStr "");
                                 ("painPoints", JList [JStr "Budget"])])]
                 "question" (JStr default_question))
              eq_refl).
  pose proof (Hp [("last_interaction", JNull);
                  ("lastInteraction", JStr "");
                  ("painPoints", JList [JStr "Budget"])]
                 (JStr default_question) eq_refl) as _.
  vm_compute. reflexivity.
Defined.

(** ** The reply, further *)

(** X15.  A reply without choices makes the handler raise [IndexError]
    after the request was sent: there is no answer. *)
Theorem reply_without_choices_raises :
  forall (str_of : json -> string) (client : chat_request -> result chat_completion)
         (body : json) (req : chat_request) (response : chat_completion),
    In req (snd (run client (analyze str_of body))) ->
    client req = Ok response ->
    choices response = [] ->
    run client (analyze str_of body) = (Error IndexError, [req]).
Proof.
  intros str_of client body req response Hin Hreq Hch.
  rewrite (run_analyze_answered _ _ _ _ _ Hin Hreq).
  unfold respond, output_text, first_choice. rewrite Hch. reflexivity.
Qed.

Lemma reply_without_choices_raises_witness :
  run (fun _ => Ok {| choices := [] |}) (analyze Fixture.str_of (JDict Fixture.request))
  = (Error IndexError, [completion_request Fixture.prompt]).
Proof.
  apply (reply_without_choices_raises Fixture.str_of (fun _ => Ok {| choices := [] |})
           (JDict Fixture.request) (completion_request Fixture.prompt)
           {| choices := [] |}).
  - vm_compute. left. reflexivity.
  - reflexivity.
  - reflexivity.
Defined.

(** X16.  Only the first choice of a reply is read, and a first choice
    whose content is [None] or the empty string gives the default
    response with status 200. *)
Theorem empty_content_gives_defaults :
  forall (str_of : json -> string) (client : chat_request -> result chat_completion)
         (body : json) (req : chat_request) (response : chat_completion)
         (first : chat_choice) (others : list chat_choice),
    In req (snd (run client (analyze str_of body))) ->
    client req = Ok response ->
    choices response = first :: others ->
    content (message first) = None \/ content (message first) = Some "" ->
    run client (analyze str_of body)
    = (Ok (JDict [("risks", JList []);
                  ("next_steps", JList []);
                  ("confidence", JFloat (of_decimal false 5 (-1)));
                  ("reasoning", JStr "Unable to parse response")], 200%Z),
       [req]).
Proof.
  intros str_of client body req response first others Hin Hreq Hch Hc.
  rewrite (run_analyze_answered _ _ _ _ _ Hin Hreq).
  unfold respond, output_text, first_choice. rewrite Hch. cbn [bind].
  destruct Hc as [-> | ->]; reflexivity.
Qed.

Lemma empty_content_gives_defaults_witness :
  run (fun _ => Ok {| choices := [ {| message := {| content := None |} |};
                                   {| message := {| content := Some "{}" |} |} ] |})
      (analyze Fixture.str_of (JDict Fixture.request))
  = (Ok (JDict [("risks", JList []);
                ("next_steps", JList []);
                ("confidence", JFloat (of_decimal false 5 (-1)));
                ("reasoning", JStr "Unable to parse response")], 200%Z),
     [completion_request Fixture.prompt]).
Proof.
  apply (empty_content_gives_defaults Fixture.str_of
           (fun _ => Ok {| choices := [ {| message := {| content := None |} |};
                                        {| message := {| content := Some "{}" |} |} ] |})
           (JDict Fixture.request) (completion_request Fixture.prompt)
           {| choices := [ {| message := {| content := None |} |};
                           {| message := {| content := Some "{}" |} |} ] |}
           {| message := {| content := None |} |}
           [ {| message := {| content := Some "{}" |} |} ]).
  - vm_compute. left. reflexivity.
  - reflexivity.
  - reflexivity.
  - left. reflexivity.
Defined.

(** X17.  The answer is made from the reply alone: two requests that
    were both sent and got the same reply are answered alike, whatever the
    requests were. *)
Theorem answer_depends_on_reply_only :
  forall (str_of str_of' : json -> string)
         (client client' : chat_request -> result chat_completion)
         (body body' : json) (req req' : chat_request) (response : chat_completion),
    In req (snd (run client (analyze str_of body))) ->
    In req' (snd (run client' (analyze str_of' body'))) ->
    client req = Ok response ->
    client' req' = Ok response ->
    fst (run client (analyze str_of body)) = fst (run client' (analyze str_of' body')).
Proof.
  intros str_of str_of' client client' body body' req req' response H1 H2 H3 H4.
  rewrite (run_analyze_answered _ _ _ _ _ H1 H3).
  rewrite (run_analyze_answered _ _ _ _ _ H2 H4). reflexivity.
Qed.

Lemma answer_depends_on_reply_only_witness :
  fst (run (Fixture.replying fenced_reply)
         (analyze Fixture.str_of (JDict Fixture.request)))
  = fst (run (Fixture.replying fenced_reply)
           (analyze Fixture.str_of (JDict aliased_request))).
Proof.
  apply (answer_depends_on_reply_only Fixture.str_of Fixture.str_of
           (Fixture.replying fenced_reply) (Fixture.replying fenced_reply)
           (JDict Fixture.request) (JDict aliased_request)
           (completion_request Fixture.prompt)
           (completion_request
              (prompt_text "Unknown" "Unknown" "Demo call last week"
                 "- Manual processes" "" "N/A" default_question))
           {| choices := [ {| message := {| content := Some fenced_reply |} |} ] |}).
  - vm_compute. left. reflexivity.
  - vm_compute. left. reflexivity.
  - reflexivity.
  - reflexivity.
Defined.

(** ** The search, further *)

Lemma append_empty_r (a : string) : a ++ "" = a.
Proof. induction a as [|x a IH]; cbn; [reflexivity | now rewrite IH]. Qed.

Lemma through_last_close_none_iff (s : string) :
  Re.through_last_close s = None <-> contains "}" s = false.
Proof.
  induction s as [|x s IH]; cbn; [tauto|].
  destruct (Re.through_last_close s) as [t|].
  - split; [discriminate|]. intros H. apply orb_false_elim in H as [_ H].
    apply IH in H. discriminate.
  - destruct (Ascii.eqb x "}"); cbn; [split; discriminate|].
    split; intros _; [now apply IH|reflexivity].
Qed.

Lemma through_last_close_app (b c : string) :
  contains "}" c = false ->
  Re.through_last_close (b ++ "}" ++ c) = Some (b ++ "}").
Proof.
  intros Hc. induction b as [|y b IH]; cbn.
  - apply through_last_close_none_iff in Hc. rewrite Hc. reflexivity.
  - cbn in IH. rewrite IH. reflexivity.
Qed.

Lemma through_last_close_tail (s t : string) :
  Re.through_last_close s = Some t ->
  exists b c, s = b ++ "}" ++ c /\ t = b ++ "}" /\ contains "}" c = false.
Proof.
  revert t. induction s as [|x s IH]; cbn; intros t H; [discriminate|].
  destruct (Re.through_last_close s) as [t'|] eqn:E.
  - injection H as <-. destruct (IH t' eq_refl) as (b & c & -> & -> & Hc).
    exists (String x b), c. repeat split; trivial.
  - destruct (Ascii.eqb_spec x "}"); [|discriminate].
    injection H as <-. subst x. exists "", s. repeat split.
    now apply through_last_close_none_iff.
Qed.

(** The span between the first opening and the last closing brace is
    found. *)
Lemma search_between_braces (a b c : string) :
  contains "{" a = false ->
  contains "}" c = false ->
  Re.search (a ++ ("{" ++ b ++ "}") ++ c) = Some ("{" ++ b ++ "}").
Proof.
  intros Ha Hc. induction a as [|x a IH].
  - replace ("" ++ ("{" ++ b ++ "}") ++ c) with (String "{" (b ++ "}" ++ c))
      by (cbn; now rewrite append_assoc).
    cbn [Re.search]. change (Ascii.eqb "{" "{") with true. cbv iota.
    rewrite (through_last_close_app b c Hc). reflexivity.
  - cbn in Ha. apply orb_false_elim in Ha as [Hx Ha].
    cbn [append Re.search]. rewrite Hx. exact (IH Ha).
Qed.

(** X18.  The search finds the span that runs from the first opening
    brace of the text to its last closing brace, and nothing else: it
    returns [span] exactly when the text is [a ++ span ++ c] with [span]
    starting with an opening and ending with a closing brace, no opening
    brace in [a] and no closing brace in [c]. *)
Theorem search_first_to_last_brace :
  forall (text span : string),
    Re.search text = Some span
    <-> exists a b c,
          text = a ++ span ++ c
          /\ span = "{" ++ b ++ "}"
          /\ contains "{" a = false
          /\ contains "}" c = false.
Proof.
  intros text span. split.
  - revert span. induction text as [|x s IH]; cbn; intros span H; [discriminate|].
    destruct (Ascii.eqb_spec x "{") as [->|Hx].
    + destruct (Re.through_last_close s) as [t|] eqn:Ht; [|discriminate].
      injection H as <-.
      destruct (through_last_close_tail _ _ Ht) as (b & c & -> & -> & Hc).
      exists "", b, c. cbn. rewrite !append_assoc. repeat split; trivial.
    + destruct (IH span H) as (a & b & c & -> & -> & Ha & Hc).
      exists (String x a), b, c. repeat split; trivial.
      cbn. apply Ascii.eqb_neq in Hx. now rewrite Hx.
  - intros (a & b & c & -> & -> & Ha & Hc).
    now apply search_between_braces.
Qed.

(** X19.  Prose and code fences around the object do not matter as long
    as no opening brace comes before it and no closing brace after it:
    extraction yields what it yields for the object alone. *)
Theorem extract_ignores_surroundings :
  forall (a b c : string),
    contains "{" a = false ->
    contains "}" c = false ->
    extract (a ++ ("{" ++ b ++ "}") ++ c) = extract ("{" ++ b ++ "}").
Proof.
  intros a b c Ha Hc. unfold extract.
  assert (Re.search (a ++ ("{" ++ b ++ "}") ++ c) = Some ("{" ++ b ++ "}")) as ->.
  { now apply search_between_braces. }
  assert (Re.search ("{" ++ b ++ "}") = Some ("{" ++ b ++ "}")) as ->.
  { rewrite <- (append_empty_r ("{" ++ b ++ "}")) at 1.
    now apply (search_between_braces "" b ""). }
  reflexivity.
Qed.

Lemma extract_ignores_surroundings_witness :
  extract (("Here you go:" ++ nl ++ "```json" ++ nl)
           ++ ("{" ++ dquoted "'confidence': 0.8" ++ "}")
           ++ (nl ++ "```"))
  = extract ("{" ++ dquoted "'confidence': 0.8" ++ "}").
Proof.
  apply (extract_ignores_surroundings
           ("Here you go:" ++ nl ++ "```json" ++ nl)
           (dquoted "'confidence': 0.8")
           (nl ++ "```"));
    reflexivity.
Defined.

(** X20.  A reply object that spells the steps [next_steps] and has no
    [nextSteps] field gets its steps through: they are the [next_steps] of
    the answer. *)
Theorem snake_case_next_steps_used_without_alias :
  forall (str_of : json -> string) (client : chat_request -> result chat_completion)
         (body : json) (req : chat_request) (response : chat_completion)
         (text : string) (d : dict) (steps : json),
    In req (snd (run client (analyze str_of body))) ->
    client req = Ok response ->
    output_text response = Ok text ->
    extract text = Ok (JDict d) ->
    dict_get "nextSteps" d = None ->
    dict_get "next_steps" d = Some steps ->
    exists risks confidence reasoning,
      run client (analyze str_of body)
      = (Ok (JDict [("risks", risks);
                    ("next_steps", steps);
                    ("confidence", confidence);
                    ("reasoning", reasoning)], 200%Z),
         [req]).
Proof.
  intros str_of client body req response text d steps Hin Hreq Ht He Hc Hs.
  rewrite (run_analyze_answered _ _ _ _ _ Hin Hreq).
  rewrite (respond_eq _ _ _ Ht He).
  unfold field_or at 2 3. rewrite Hc, Hs. eauto.
Qed.

Lemma snake_case_next_steps_used_without_alias_witness :
  exists risks confidence reasoning,
    run (Fixture.replying (dquoted "{'next_steps': [{'action': 'Call CFO'}]}"))
        (analyze Fixture.str_of (JDict Fixture.request))
    = (Ok (JDict [("risks", risks);
                  ("next_steps", JList [JDict [("action", JStr "Call CFO")]]);
                  ("confidence", confidence);
                  ("reasoning", reasoning)], 200%Z),
       [completion_request Fixture.prompt]).
Proof.
  apply (snake_case_next_steps_used_without_alias Fixture.str_of
           (Fixture.replying (dquoted "{'next_steps': [{'action': 'Call CFO'}]}"))
           (JDict Fixture.request) (completion_request Fixture.prompt)
           {| choices := [ {| message := {| content :=
                Some (dquoted "{'next_steps': [{'action': 'Call CFO'}]}") |} |} ] |}
           (dquoted "{'next_steps': [{'action': 'Call CFO'}]}")
           [("next_steps", JList [JDict [("action", JStr "Call CFO")]])]
           (JList [JDict [("action", JStr "Call CFO")]])).
  - vm_compute. left. reflexivity.
  - reflexivity.
  - reflexivity.
  - vm_compute. reflexivity.
  - reflexivity.
  - reflexivity.
Defined.
